(** * du-recall: ingestion, enrichment and graph mapping, verified against the code

  A shallow embedding of

  - [src/handlers/file_handlers.py] (handlers, [validate], handler factory),
  - [src/pipeline/flow.py] (the four Prefect tasks and the mock classifier),
  - [src/handlers/rdf_storage.py] ([convert_to_rdf]),

  followed by the properties of the specification that concern them.
  [data_pipeline_flow] and [store_rdf_triples] are left out: what they do rests
  on Prefect's task runner and on rdflib's Turtle serialiser, not on code of
  the repository.  The stages are modelled as the tasks Prefect makes of them.

  Python values are an inductive type, a [dict] with string keys is a
  [gmap string value], a [list] is a [list].  Python floats are IEEE 754
  binary64 numbers, taken from the kernel's specification of floating point
  ([spec_float] at precision 53 and maximal exponent 1024), so that float
  arithmetic computes inside Rocq exactly as it does in CPython.  Exceptions
  are results of a sum type; [np.random] is a generator state that is threaded
  through the code; [time.sleep] and [print] have no effect on any value
  and are left out, except for the one [print] whose argument can raise. *)

From Stdlib Require Import ZArith Ascii String SpecFloat Lia.
From stdpp Require Import gmap strings list fin_maps pretty.

Local Open Scope Z_scope.
Local Open Scope string_scope.

(** ** Python values *)

Module Py.

(** binary64 arithmetic *)
Definition prec : Z := 53.
Definition emax : Z := 1024.

Definition float_of_int (n : Z) : spec_float := binary_normalize prec emax n 0 false.
Definition fadd : spec_float → spec_float → spec_float := SFadd prec emax.
Definition fmul : spec_float → spec_float → spec_float := SFmul prec emax.
Definition fdiv : spec_float → spec_float → spec_float := SFdiv prec emax.
Definition flt : spec_float → spec_float → bool := SFltb.
Definition fle : spec_float → spec_float → bool := SFleb.

Definition nan : spec_float := S754_nan.

(** A scalar as it occurs in a record: [None], [bool], [int], [float], [str].
    The characters of a [string] stand for the code points of the [str]. *)
Inductive value : Type :=
| VNone
| VBool (b : bool)
| VInt (n : Z)
| VFloat (x : spec_float)
| VStr (s : string).

#[global] Instance spec_float_eq_dec : EqDecision spec_float.
Proof. solve_decision. Defined.

#[global] Instance value_eq_dec : EqDecision value.
Proof. solve_decision. Defined.

#[global] Instance value_inhabited : Inhabited value := populate VNone.

(** [bool(v)]: the truth value Python gives [v] in [if v], [not v], [a and b].
    A float is false only when it equals zero, so NaN is true. *)
Definition truthy (v : value) : bool :=
  match v with
  | VNone => false
  | VBool b => b
  | VInt n => negb (Z.eqb n 0)
  | VFloat x => negb (SFeqb x (float_of_int 0))
  | VStr s => negb (String.eqb s "")
  end.

(** [v == 'lit']: only a [str] with the same characters equals a [str]. *)
Definition eq_str (v : value) (lit : string) : bool :=
  match v with
  | VStr s => String.eqb s lit
  | _ => false
  end.

(** [min(a, b)] on floats: the first argument unless the second is smaller. *)
Definition min (a b : spec_float) : spec_float := if flt b a then b else a.

(** [d.get(k, default)] *)
Definition get (d : gmap string value) (k : string) (default : value) : value :=
  match d !! k with
  | Some v => v
  | None => default
  end.

(** [k in d] *)
Definition contains (d : gmap string value) (k : string) : bool :=
  bool_decide (is_Some (d !! k)).

(** Exceptions the modelled code can raise. *)
Inductive exn : Type :=
| ValueError (msg : string)
| IndexError
| TypeError
| NameError (name : string).

#[global] Instance exn_eq_dec : EqDecision exn.
Proof. solve_decision. Defined.

(** The outcome of a call: a value or a raised exception. *)
Inductive result (A : Type) : Type :=
| Return (a : A)
| Raise (e : exn).
#[global] Arguments Return {A} a.
#[global] Arguments Raise {A} e.

Definition bind {A B} (c : result A) (k : A → result B) : result B :=
  match c with
  | Return a => k a
  | Raise e => Raise e
  end.

(** A loop whose body may raise: the first exception ends it. *)
Fixpoint for_each {A B} (body : A → result B) (l : list A) : result (list B) :=
  match l with
  | [] => Return []
  | a :: l' =>
      bind (body a) (λ b, bind (for_each body l') (λ bs, Return (b :: bs)))
  end.

End Py.

Import Py.

Notation "'do' x <- c ; k" := (Py.bind c (λ x, k))
  (at level 10, x name, c at level 100, k at level 200, only parsing).

(** [ProcessedData = List[Dict[str, Any]]] *)
Abbreviation ProcessedData := (list (gmap string value)).

(** ** numpy: the global random generator *)

Module np.

(** The state of [np.random]: the samples (floats in [0, 1)) it will hand out,
    in order. *)
Definition RandomState : Type := nat → spec_float.

(** [np.random.rand()]: the next sample and the advanced generator. *)
Definition rand (g : RandomState) : spec_float * RandomState :=
  (g 0%nat, λ n, g (S n)).

End np.

(** ** pandas: frames built from a list of dicts *)

Module pd.

(** A frame stores its columns; every column has one cell per row. *)
Record Frame : Type := mkFrame {
  nrows : nat;
  columns : gmap string (list value)
}.

(** The cells pandas stores for one column of [pd.DataFrame(list_of_dicts)],
    given what each dict holds under that key ([None]: the dict lacks the key).
    pandas chooses a dtype per column and converts the cells to it (an [int]
    column with a gap becomes [float64], say).  The development relies on two
    facts only: a column keeps one cell per dict, and a gap is stored as NaN. *)
Record dtype_inference : Type := mkInference {
  infer_column : list (option value) → list value;
  infer_column_length : ∀ cells, length (infer_column cells) = length cells;
  infer_column_gap : ∀ cells i,
    cells !! i = Some None → infer_column cells !! i = Some (VFloat nan)
}.

(** The field names of a batch: the union of the keys of its dicts. *)
Definition field_names (data : ProcessedData) : gset string :=
  ⋃ (dom <$> data).

(** [pd.DataFrame(data)] for a list of dicts. *)
Definition DataFrame (I : dtype_inference) (data : ProcessedData) : Frame :=
  {| nrows := length data;
     columns := map_imap (λ k (_ : unit), Some (infer_column I ((λ record, record !! k) <$> data)))
                         (gset_to_gmap () (field_names data)) |}.

(** Row [i] as the Series that [df.apply(f, axis=1)] passes to [f]. *)
Definition row (df : Frame) (i : nat) : gmap string value :=
  omap (λ col : list value, col !! i) (columns df).

(** [df[c] = series] *)
Definition setitem (df : Frame) (c : string) (series : list value) : Frame :=
  {| nrows := nrows df; columns := <[c := series]> (columns df) |}.

(** [df.to_dict('records')] *)
Definition to_dict_records (df : Frame) : ProcessedData :=
  row df <$> seq 0 (nrows df).

(** Calling a function that may draw random samples on each row in turn. *)
Fixpoint map_rows {S A} (f : gmap string value → S → A * S)
    (rows : list (gmap string value)) (s : S) : list A * S :=
  match rows with
  | [] => ([], s)
  | r :: rows' =>
      let '(a, s1) := f r s in
      let '(rest, s2) := map_rows f rows' s1 in
      (a :: rest, s2)
  end.

(** [df.apply(f, axis=1)] for an [f] that returns a scalar.  When the frame has
    no rows or no columns pandas does not visit rows: it calls [f] once on a
    row holding NaN under every column name to see what [f] returns, and then,
    if there are rows (and hence no columns), once more on an empty Series,
    giving every row that one result. *)
Definition apply_axis1 {S A} (f : gmap string value → S → A * S)
    (df : Frame) (s : S) : list A * S :=
  if bool_decide (nrows df = 0%nat ∨ columns df = ∅) then
    let '(_, s1) := f ((λ _, VFloat nan) <$> columns df) s in
    match nrows df with
    | O => ([], s1)
    | n => let '(r, s2) := f ∅ s1 in (replicate n r, s2)
    end
  else map_rows f (to_dict_records df) s.

End pd.

(** ** file_handlers.py *)

Module file_handlers.

(** What the handlers read from outside the program.  [urlparse_scheme s] is
    [urlparse(s).scheme], or the exception [urlparse] raises; [read_csv k path]
    is what [pd.read_csv(path)] gives the [k]-th time the ingestion task runs
    (the file may change between two runs), a frame or an exception. *)
Record World : Type := mkWorld {
  urlparse_scheme : string → result string;
  read_csv : nat → string → result pd.Frame
}.

(** [FileHandler.validate] *)
Definition validate (data : ProcessedData) : bool :=
  if negb (bool_decide (data ≠ [])) then false            (* if not data *)
  else if negb (forallb (λ record, contains record "id" && contains record "raw_text") data)
  then false
  else true.

(** [CSVFileHandler.parse]: any exception of the [try] block gives [[]]. *)
Definition CSVFileHandler_parse (W : World) (k : nat) (source_identifier : string)
    : ProcessedData :=
  match read_csv W k source_identifier with
  | Return df =>
      let df :=
        if bool_decide ("id" ∉ dom (pd.columns df))
        then pd.setitem df "id" ((λ i, VInt (Z.of_nat i)) <$> seq 1 (pd.nrows df))
        else df in
      pd.to_dict_records df
  | Raise _ => []
  end.

(** [needle in hay] on strings *)
Fixpoint is_substring (needle hay : string) : bool :=
  String.prefix needle hay ||
  match hay with
  | EmptyString => false
  | String _ hay' => is_substring needle hay'
  end.

(** [TrustfallWebHandler._mock_trustfall_execute] *)
Definition mock_trustfall_execute (url : string) : ProcessedData :=
  if is_substring "ecommerce-report" url then
    [ {[ "id" := VInt 101;
         "title" := VStr "Q1 Inventory Summary";
         "price" := VFloat (float_of_int 0);
         "review_count" := VInt 50;
         "author_name" := VStr "Web Scraper";
         "in_stock" := VBool true;
         "raw_text" := VStr "Q1 saw a massive spike in smart device sales across North America. Inventory velocity is high." ]};
      {[ "id" := VInt 102;
         "title" := VStr "Q2 Key Takeaways";
         "price" := VFloat (float_of_int 0);
         "review_count" := VInt 12;
         "author_name" := VStr "Web Scraper";
         "in_stock" := VBool false;
         "raw_text" := VStr "Minor delays in EU shipping chain impacted Q2 revenue targets slightly." ]} ]
  else [].

Definition TrustfallWebHandler_parse (source_identifier : string) : ProcessedData :=
  mock_trustfall_execute source_identifier.

Inductive handler : Type :=
| CSVFileHandler (source_identifier : string)
| TrustfallWebHandler (source_identifier : string).

Definition parse (W : World) (k : nat) (h : handler) : ProcessedData :=
  match h with
  | CSVFileHandler source_identifier => CSVFileHandler_parse W k source_identifier
  | TrustfallWebHandler source_identifier => TrustfallWebHandler_parse source_identifier
  end.

Definition is_url (W : World) (source_identifier : string) : bool :=
  match urlparse_scheme W source_identifier with
  | Return scheme => bool_decide (scheme ∈ ["http"; "https"])
  | Raise _ => false
  end.

(** [s.lower()], as far as [endswith] below can tell: on the ASCII letters. *)
Definition lower_char (c : ascii) : ascii :=
  let n := Ascii.N_of_ascii c in
  if ((65 <=? n) && (n <=? 90))%N then Ascii.ascii_of_N (n + 32) else c.

Fixpoint lower (s : string) : string :=
  match s with
  | EmptyString => EmptyString
  | String c s' => String (lower_char c) (lower s')
  end.

Definition endswith (s suffix : string) : bool :=
  let n := String.length s in
  let m := String.length suffix in
  (m <=? n)%nat && String.eqb (String.substring (n - m) m s) suffix.

Definition get_handler (W : World) (source_identifier : string) : handler :=
  if is_url W source_identifier then TrustfallWebHandler source_identifier
  else if endswith (lower source_identifier) ".csv" || endswith (lower source_identifier) ".txt"
  then CSVFileHandler source_identifier
  else CSVFileHandler source_identifier.

End file_handlers.

(** ** rdf_storage.py *)

Module rdf_storage.

(** The two builtins of CPython that act on arbitrary floats in
    [convert_to_rdf]: [str(x)] inside an f-string, and [round(x, 1)]. *)
Record Builtins : Type := mkBuiltins {
  float_str : spec_float → string;
  float_round1 : spec_float → spec_float
}.

(** rdflib terms.  A literal is kept as the Python value it was built from and
    the datatype passed to [Literal], if any. *)
Inductive term : Type :=
| URIRef (iri : string)
| Literal (v : value) (datatype : option string).

#[global] Instance term_eq_dec : EqDecision term.
Proof. solve_decision. Defined.

Definition triple : Type := term * term * term.

(** [Graph()]: a set of triples, here in the order of first insertion. *)
Definition Graph : Type := list triple.

(** [g.add(t)] *)
Definition add (g : Graph) (t : triple) : Graph :=
  if bool_decide (t ∈ g) then g else (g ++ [t])%list.

(** The order in which a graph's store hands out its triples is the store's
    own business; each triple of the graph comes out once. *)
Record Store : Type := mkStore {
  triples : Graph → list triple;
  triples_perm : ∀ g, triples g ≡ₚ g
}.

Definition SCHEMA (name : string) : term := URIRef ("http://schema.org/" ++ name).
Definition ANALYSIS_NS (name : string) : term := URIRef ("urn:analysis-reports/" ++ name).
Definition RDF_type : term := URIRef "http://www.w3.org/1999/02/22-rdf-syntax-ns#type".
Definition XSD_float : string := "http://www.w3.org/2001/XMLSchema#float".

(** [f"{v}"] *)
Definition str (B : Builtins) (v : value) : string :=
  match v with
  | VNone => "None"
  | VBool true => "True"
  | VBool false => "False"
  | VInt n => pretty n
  | VFloat x => float_str B x
  | VStr s => s
  end.

(** [round(v, 1)] *)
Definition round1 (B : Builtins) (v : value) : result value :=
  match v with
  | VFloat x => Return (VFloat (float_round1 B x))
  | VInt n => Return (VInt n)
  | VBool b => Return (VInt (if b then 1 else 0))
  | VNone | VStr _ => Raise TypeError
  end.

(** The body of the loop of [convert_to_rdf] for one record. *)
Definition convert_record (B : Builtins) (g : Graph) (record : gmap string value)
    : result Graph :=
  let record_id := get record "id" VNone in
  if negb (truthy record_id) then Return g                 (* continue *)
  else
    let product_uri := ANALYSIS_NS ("Product_" ++ str B record_id) in
    let g := add g (product_uri, RDF_type, SCHEMA "Product") in
    let g :=
      if contains record "raw_text"
      then add g (product_uri, SCHEMA "description", Literal (get record "raw_text" VNone) None)
      else g in
    let g :=
      if contains record "in_stock" then
        if truthy (get record "in_stock" VNone)
        then add g (product_uri, SCHEMA "availability", SCHEMA "InStock")
        else add g (product_uri, SCHEMA "availability", SCHEMA "OutOfStock")
      else g in
    let classification := get record "llm_classification" VNone in
    let g :=
      if truthy classification then
        let g := add g (product_uri, SCHEMA "category", Literal classification None) in
        let review_uri := ANALYSIS_NS ("Review_" ++ str B record_id) in
        let g := add g (review_uri, RDF_type, SCHEMA "Review") in
        let g := add g (review_uri, SCHEMA "itemReviewed", product_uri) in
        add g (review_uri, SCHEMA "reviewBody",
               Literal (VStr ("LLM insight: " ++ str B classification)) None)
      else g in
    let velocity := get record "inventory_velocity" VNone in
    let priority := get record "priority_score" VNone in
    let g :=
      if bool_decide (velocity ≠ VNone)
      then add g (product_uri, ANALYSIS_NS "inventoryVelocity", Literal velocity (Some XSD_float))
      else g in
    if bool_decide (priority ≠ VNone) then
      let rating_uri := ANALYSIS_NS ("Rating_" ++ str B record_id) in
      let g := add g (rating_uri, RDF_type, SCHEMA "Rating") in
      do rounded <- round1 B priority;
      let g := add g (rating_uri, SCHEMA "ratingValue", Literal rounded (Some XSD_float)) in
      let g := add g (rating_uri, SCHEMA "bestRating", Literal (VInt 5) (Some XSD_float)) in
      Return (add g (product_uri, SCHEMA "aggregateRating", rating_uri))
    else Return g.

(** The loop: the graph after the records seen so far, or the first exception. *)
Fixpoint convert_records (B : Builtins) (g : Graph) (final_data : ProcessedData)
    : result Graph :=
  match final_data with
  | [] => Return g
  | record :: rest =>
      do g' <- convert_record B g record;
      convert_records B g' rest
  end.

Definition convert_to_rdf (B : Builtins) (S : Store) (final_data : ProcessedData)
    : result (list triple) :=
  do g <- convert_records B [] final_data;
  Return (triples S g).

End rdf_storage.

(** ** Prefect: running a task with its retry policy *)

Module prefect.

(** What a task run leaves behind: its final state, how many times the task
    function was called, and the delays slept between the calls. *)
Record TaskRun (A : Type) : Type := mkTaskRun {
  state : result A;
  run_count : nat;
  slept : list Z
}.
#[global] Arguments mkTaskRun {A} _ _ _.
#[global] Arguments state {A} _.
#[global] Arguments run_count {A} _.
#[global] Arguments slept {A} _.

(** The delay before retry number [k] (from 0): the [k]-th entry of
    [retry_delay_seconds], the last entry when the list is shorter, and no
    delay when no list was given. *)
Definition retry_delay (retry_delay_seconds : list Z) (k : nat) : Z :=
  default 0 (retry_delay_seconds !! Nat.min k (length retry_delay_seconds - 1)).

(** The task function is called; if it raises (whatever it raises) and
    retries are left, the engine sleeps and calls it again.  [fn k] is the
    [k]-th call. *)
Fixpoint run_from {A} (retries_left : nat) (retry_delay_seconds : list Z)
    (fn : nat → result A) (k : nat) : TaskRun A :=
  match fn k with
  | Return a => mkTaskRun (Return a) 1 []
  | Raise e =>
      match retries_left with
      | O => mkTaskRun (Raise e) 1 []
      | S retries_left' =>
          let later := run_from retries_left' retry_delay_seconds fn (S k) in
          mkTaskRun (state later) (S (run_count later))
                    (retry_delay retry_delay_seconds k :: slept later)
      end
  end.

(** [@task(retries=..., retry_delay_seconds=...)]; both default to none. *)
Definition task {A} (retries : nat) (retry_delay_seconds : list Z)
    (fn : nat → result A) : TaskRun A :=
  run_from retries retry_delay_seconds fn 0.

End prefect.

(** ** flow.py: the mock classifier and the enrichment stages *)

Module flow.

(** [MockHaystackDocument]; the classifier's result dicts
    [{"content": ..., "meta": ...}] have the same two fields. *)
Record MockHaystackDocument : Type := mkDocument {
  content : value;
  meta : gmap string value
}.

(** [len(doc.content)]: defined on a [str] only. *)
Definition len (v : value) : result nat :=
  match v with
  | VStr s => Return (String.length s)
  | _ => Raise TypeError
  end.

(** The body of the loop of [MockHaystackClassifier.run]. *)
Definition classify_document (doc : MockHaystackDocument) : result MockHaystackDocument :=
  do content_len <- len (content doc);
  let classification_label := "ProductReview" in
  let classification_label :=
    if (100 <? content_len)%nat then "LongReport"
    else if (40 <? content_len)%nat then "DetailedSpec"
    else classification_label in
  let new_meta := <["llm_classification" := VStr classification_label]> (meta doc) in
  Return {| content := content doc; meta := new_meta |}.

(** [MockHaystackClassifier.run(documents)["documents"]] *)
Definition MockHaystackClassifier_run (documents : list MockHaystackDocument)
    : result (list MockHaystackDocument) :=
  for_each classify_document documents.

(** [MockHaystackPipeline.run]: runs the first (and only) node. *)
Definition MockHaystackPipeline_run (documents : list MockHaystackDocument)
    : result (list MockHaystackDocument) :=
  MockHaystackClassifier_run documents.

Definition run_llm_classification (raw_data : ProcessedData) : result ProcessedData :=
  let haystack_docs :=
    (λ record, {| content := get record "raw_text" (VStr "");
                  meta := delete "raw_text" record |}) <$> raw_data in
  if bool_decide (haystack_docs = []) then Return raw_data
  else
    do pipeline_results <- MockHaystackPipeline_run haystack_docs;
    (* {"raw_text": content, **meta}: the entries of meta come last *)
    Return ((λ doc_result, meta doc_result ∪ {["raw_text" := content doc_result]})
              <$> pipeline_results).

(** Float literals of the scoring code. *)
Definition f0_0 : spec_float := float_of_int 0.
Definition f1_0 : spec_float := float_of_int 1.
Definition f1_5 : spec_float := binary_normalize prec emax 3 (-1) false.
Definition f4_0 : spec_float := float_of_int 4.
Definition f5_0 : spec_float := float_of_int 5.

(** The lambda that computes [inventory_velocity]; either branch draws one
    sample. *)
Definition inventory_velocity (row : gmap string value) (g : np.RandomState)
    : spec_float * np.RandomState :=
  if truthy (get row "in_stock" (VBool false))
     && eq_str (get row "llm_classification" VNone) "DetailedSpec"
  then let '(u, g') := np.rand g in (fadd (fmul u f4_0) f1_0, g')
  else let '(u, g') := np.rand g in (fmul u f1_5, g').

(** The integer [score] of [calculate_priority] just before its [return]. *)
Definition priority_points (row : gmap string value) : Z :=
  let score := 0 in
  let classification := get row "llm_classification" (VStr "") in
  let in_stock := get row "in_stock" (VBool false) in
  let score :=
    if eq_str classification "DetailedSpec" then score + 4
    else if eq_str classification "ProductReview" then score + 2
    else score in
  let score :=
    if truthy in_stock && eq_str classification "ProductReview" then score + 1
    else if negb (truthy in_stock) && eq_str classification "DetailedSpec" then score + 1
    else score in
  score.

(** [score / 5.0 * 5.0] *)
Definition rescaled (score : Z) : spec_float :=
  fmul (fdiv (float_of_int score) f5_0) f5_0.

Definition calculate_priority (row : gmap string value) : spec_float :=
  Py.min (rescaled (priority_points row)) f5_0.

(** [run_dask_analysis]; the f-string of the last [print] reads
    [final_data[0]]. *)
Definition run_dask_analysis (I : pd.dtype_inference) (data : ProcessedData)
    (g : np.RandomState) : result ProcessedData * np.RandomState :=
  let df := pd.DataFrame I data in
  let '(velocity, g1) := pd.apply_axis1 inventory_velocity df g in
  let df := pd.setitem df "inventory_velocity" (VFloat <$> velocity) in
  let '(priority, g2) := pd.apply_axis1 (λ row s, (calculate_priority row, s)) df g1 in
  let df := pd.setitem df "priority_score" (VFloat <$> priority) in
  let final_data := pd.to_dict_records df in
  match final_data !! 0%nat with
  | None => (Raise IndexError, g2)
  | Some _ => (Return final_data, g2)
  end.

(** [ingest_and_validate], the function under [@task]; [k] counts the calls. *)
Definition ingest_and_validate (W : file_handlers.World) (source_identifier : string)
    (k : nat) : result ProcessedData :=
  let handler := file_handlers.get_handler W source_identifier in
  let data := file_handlers.parse W k handler in
  if negb (bool_decide (data ≠ [])) || negb (file_handlers.validate data)
  then Raise (ValueError "Ingestion failed: Data is empty or invalid after parsing.")
  else Return data.

(** What the module namespace of flow.py binds the names [convert_to_rdf] and
    [store_rdf_triples] to when [store_results_to_rocksdb] runs.  flow.py
    imports [get_handler] and [ProcessedData] from the handlers and nothing
    from rdf_storage.py, it defines neither name itself, and neither is a
    builtin: both are unbound. *)
Definition bound_convert_to_rdf
    : option (ProcessedData → result (list rdf_storage.triple)) := None.
Definition bound_store_rdf_triples
    : option (list rdf_storage.triple → result string) := None.

(** The call [name(x)] of a global name: an unbound name raises [NameError]. *)
Definition call_global {A B} (name : string) (binding : option (A → result B))
    (x : A) : result B :=
  match binding with
  | Some f => f x
  | None => Raise (NameError name)
  end.

(** [store_results_to_rocksdb], the function under [@task]. *)
Definition store_results_to_rocksdb (final_data : ProcessedData) : result string :=
  do triples <- call_global "convert_to_rdf" bound_convert_to_rdf final_data;
  do store_result <- call_global "store_rdf_triples" bound_store_rdf_triples triples;
  Return store_result.

(** The tasks as Prefect runs them.
    [@task(retries=3, retry_delay_seconds=[5, 10, 30])] for ingestion,
    [@task(log_prints=True)] for the three others. *)
Definition ingest_task (W : file_handlers.World) (source_identifier : string)
    : prefect.TaskRun ProcessedData :=
  prefect.task 3 [5; 10; 30] (ingest_and_validate W source_identifier).

Definition classification_task (raw_data : ProcessedData) : prefect.TaskRun ProcessedData :=
  prefect.task 0 [] (λ _, run_llm_classification raw_data).

Definition analysis_task (I : pd.dtype_inference) (data : ProcessedData)
    (g : np.RandomState) : prefect.TaskRun ProcessedData :=
  prefect.task 0 [] (λ _, fst (run_dask_analysis I data g)).


End flow.

(** A dtype inference that keeps every cell as it is and fills gaps with NaN:
    what pandas does for columns of dtype [object]. *)
Definition object_dtype : pd.dtype_inference.
Proof.
  refine (pd.mkInference (fmap (λ c : option value, default (VFloat nan) c)) _ _).
  - intros cells. apply length_fmap.
  - intros cells i H. rewrite list_lookup_fmap, H. reflexivity.
Defined.


(** ** What the scoring stage makes of one row *)

(** The record [run_dask_analysis] returns for a row [r] of the frame it
    built, when [v] is the velocity computed for that row. *)
Definition scored (r : gmap string value) (v : spec_float) : gmap string value :=
  <["priority_score" := VFloat (flow.calculate_priority r)]>
    (<["inventory_velocity" := VFloat v]> r).

(** The series that [run_dask_analysis] computes for [inventory_velocity]:
    [df.apply(<lambda>, axis=1)] on the frame of the batch. *)
Definition velocity_series (I : pd.dtype_inference) (data : ProcessedData)
    (g : np.RandomState) : list spec_float :=
  (pd.apply_axis1 flow.inventory_velocity (pd.DataFrame I data) g).1.

(** The frame on which [run_dask_analysis] computes [priority_score]: the
    frame of the batch with the column [inventory_velocity] assigned. *)
Definition frame_with_velocity (I : pd.dtype_inference) (data : ProcessedData)
    (g : np.RandomState) : pd.Frame :=
  pd.setitem (pd.DataFrame I data) "inventory_velocity" (VFloat <$> velocity_series I data g).

(** What a batch of results holds under key [k], record by record. *)
Definition column_of (k : string) (r : result ProcessedData) : result (list (option value)) :=
  do out <- r; Return ((λ record : gmap string value, record !! k) <$> out).

(** Two calls of [run_dask_analysis] on the same batch, one after the other:
    the second call finds the generator as the first one left it. *)
Definition run_dask_analysis_twice (I : pd.dtype_inference) (data : ProcessedData)
    (g : np.RandomState) : result ProcessedData * result ProcessedData :=
  let '(first, g1) := flow.run_dask_analysis I data g in
  let '(second, _) := flow.run_dask_analysis I data g1 in
  (first, second).

(** ** Why an ingestion attempt fails *)

(** The three kinds of ingestion failure, as conditions on the [k]-th call of
    [ingest_and_validate]: the file cannot be read, the parsed batch is empty,
    the parsed batch does not pass [validate]. *)
Inductive ingestion_failure (W : file_handlers.World) (source_identifier : string)
    (k : nat) : Prop :=
| SourceUnreachable (e : exn) :
    file_handlers.get_handler W source_identifier
      = file_handlers.CSVFileHandler source_identifier →
    file_handlers.read_csv W k source_identifier = Raise e →
    ingestion_failure W source_identifier k
| SourceEmpty :
    file_handlers.parse W k (file_handlers.get_handler W source_identifier) = [] →
    ingestion_failure W source_identifier k
| SourceFormatInvalid :
    file_handlers.validate
      (file_handlers.parse W k (file_handlers.get_handler W source_identifier)) = false →
    ingestion_failure W source_identifier k.

Definition ingestion_error : exn :=
  ValueError "Ingestion failed: Data is empty or invalid after parsing.".

(** ** What the graph mapping adds for one record *)

(** The triples the body of the loop of [convert_to_rdf] passes to [g.add]
    for one record, rule by rule and in the order of the calls. *)
Definition product_uri (B : rdf_storage.Builtins) (record : gmap string value) : rdf_storage.term :=
  rdf_storage.ANALYSIS_NS ("Product_" ++ rdf_storage.str B (get record "id" VNone)).
Definition review_uri (B : rdf_storage.Builtins) (record : gmap string value) : rdf_storage.term :=
  rdf_storage.ANALYSIS_NS ("Review_" ++ rdf_storage.str B (get record "id" VNone)).
Definition rating_uri (B : rdf_storage.Builtins) (record : gmap string value) : rdf_storage.term :=
  rdf_storage.ANALYSIS_NS ("Rating_" ++ rdf_storage.str B (get record "id" VNone)).

Definition core_triples (B : rdf_storage.Builtins) (record : gmap string value)
    : list rdf_storage.triple :=
  [(product_uri B record, rdf_storage.RDF_type, rdf_storage.SCHEMA "Product")].

Definition description_triples (B : rdf_storage.Builtins) (record : gmap string value)
    : list rdf_storage.triple :=
  if contains record "raw_text"
  then [(product_uri B record, rdf_storage.SCHEMA "description",
         rdf_storage.Literal (get record "raw_text" VNone) None)]
  else [].

Definition availability_triples (B : rdf_storage.Builtins) (record : gmap string value)
    : list rdf_storage.triple :=
  if contains record "in_stock" then
    if truthy (get record "in_stock" VNone)
    then [(product_uri B record, rdf_storage.SCHEMA "availability", rdf_storage.SCHEMA "InStock")]
    else [(product_uri B record, rdf_storage.SCHEMA "availability", rdf_storage.SCHEMA "OutOfStock")]
  else [].

Definition insight_triples (B : rdf_storage.Builtins) (record : gmap string value)
    : list rdf_storage.triple :=
  let classification := get record "llm_classification" VNone in
  if truthy classification then
    [(product_uri B record, rdf_storage.SCHEMA "category",
      rdf_storage.Literal classification None);
     (review_uri B record, rdf_storage.RDF_type, rdf_storage.SCHEMA "Review");
     (review_uri B record, rdf_storage.SCHEMA "itemReviewed", product_uri B record);
     (review_uri B record, rdf_storage.SCHEMA "reviewBody",
      rdf_storage.Literal (VStr ("LLM insight: " ++ rdf_storage.str B classification)) None)]
  else [].

Definition velocity_triples (B : rdf_storage.Builtins) (record : gmap string value)
    : list rdf_storage.triple :=
  let velocity := get record "inventory_velocity" VNone in
  if bool_decide (velocity ≠ VNone)
  then [(product_uri B record, rdf_storage.ANALYSIS_NS "inventoryVelocity",
         rdf_storage.Literal velocity (Some rdf_storage.XSD_float))]
  else [].

Definition rating_triples (B : rdf_storage.Builtins) (record : gmap string value)
    (rounded : value) : list rdf_storage.triple :=
  [(rating_uri B record, rdf_storage.RDF_type, rdf_storage.SCHEMA "Rating");
   (rating_uri B record, rdf_storage.SCHEMA "ratingValue",
    rdf_storage.Literal rounded (Some rdf_storage.XSD_float));
   (rating_uri B record, rdf_storage.SCHEMA "bestRating",
    rdf_storage.Literal (VInt 5) (Some rdf_storage.XSD_float));
   (product_uri B record, rdf_storage.SCHEMA "aggregateRating", rating_uri B record)].

(** All of them for one record, or the exception of [round(priority, 1)]. *)
Definition record_triples (B : rdf_storage.Builtins) (record : gmap string value)
    : result (list rdf_storage.triple) :=
  if negb (truthy (get record "id" VNone)) then Return []
  else
    let unrated :=
      (core_triples B record ++ description_triples B record ++
       availability_triples B record ++ insight_triples B record ++
       velocity_triples B record)%list in
    let priority := get record "priority_score" VNone in
    if bool_decide (priority ≠ VNone) then
      do rounded <- rdf_storage.round1 B priority;
      Return (unrated ++ rating_triples B record rounded)%list
    else Return unrated.

(** ** What the classification stage makes of one record *)

(** The label the mock classifier gives a text of [n] characters. *)
Definition label_of_length (n : nat) : string :=
  if (100 <? n)%nat then "LongReport"
  else if (40 <? n)%nat then "DetailedSpec"
  else "ProductReview".

(** The record [run_llm_classification] returns for a record [r] whose text
    ([raw_text], or the empty string without it) is the [str] [s]. *)
Definition classified (r : gmap string value) (s : string) : gmap string value :=
  <["llm_classification" := VStr (label_of_length (String.length s))]>
    (<["raw_text" := VStr s]> r).

(** A dtype inference that leaves a [str] cell as it is, as pandas does. *)
Definition keeps_text (I : pd.dtype_inference) : Prop :=
  ∀ cells i s, cells !! i = Some (Some (VStr s)) →
               pd.infer_column I cells !! i = Some (VStr s).

(** A frame as [pd.read_csv] builds it: every column has one cell per row. *)
Definition frame_well_formed (df : pd.Frame) : Prop :=
  ∀ k col, pd.columns df !! k = Some col → length col = pd.nrows df.

(** ** Concrete batches, generators and worlds used below *)

Module sample.

(** A record as ingestion delivers it. *)
Definition review : gmap string value :=
  {[ "id" := VInt 1; "raw_text" := VStr "Great camera." ]}.

(** Both keys present, but [id] is [None] and [raw_text] is empty. *)
Definition hollow : gmap string value :=
  {[ "id" := VNone; "raw_text" := VStr "" ]}.

(** No [raw_text]. *)
Definition untexted : gmap string value :=
  {[ "id" := VInt 2 ]}.

(** A record that already carries a [priority_score]. *)
Definition rated : gmap string value :=
  {[ "id" := VInt 7; "raw_text" := VStr "Old report."; "priority_score" := VFloat flow.f4_0 ]}.

Definition f0_5 : spec_float := binary_normalize prec emax 1 (-1) false.

(** A generator whose first sample is 0.0 and whose later samples are 0.5. *)
Definition zero_then_half : np.RandomState :=
  λ n, match n with O => flow.f0_0 | _ => f0_5 end.

(** Present [id], but 0. *)
Definition zeroth : gmap string value :=
  {[ "id" := VInt 0; "raw_text" := VStr "First row." ]}.

(** No source identifier is a URL; the CSV file holds a header and no row. *)
Definition header_only_csv : file_handlers.World :=
  file_handlers.mkWorld
    (λ _, Return "")
    (λ _ _, Return (pd.mkFrame 0 {[ "id" := []; "raw_text" := [] ]})).

(** The CSV file holds one row and has no [raw_text] column. *)
Definition id_only_csv : file_handlers.World :=
  file_handlers.mkWorld
    (λ _, Return "")
    (λ _ _, Return (pd.mkFrame 1 {[ "id" := [VInt 1] ]})).

(** The CSV file holds the one row of [zeroth]. *)
Definition zero_id_csv : file_handlers.World :=
  file_handlers.mkWorld
    (λ _, Return "")
    (λ _ _, Return (pd.mkFrame 1 {[ "id" := [VInt 0]; "raw_text" := [VStr "First row."] ]})).

(** In the samples no float is formatted into a URI, and the only floats
    that reach [round(x, 1)] are whole numbers, which it returns unchanged. *)
Definition builtins : rdf_storage.Builtins :=
  rdf_storage.mkBuiltins (λ _, "nan") (λ x, x).

(** The file of test_main.py as [pd.read_csv] parses it. *)
Definition mock_csv : pd.Frame :=
  pd.mkFrame 4
    {[ "id" := [VInt 1; VInt 2; VInt 3; VInt 4];
       "raw_text" :=
         [VStr "The new smartphone has a great camera and long battery life.";
          VStr "A quick memo about Q3 inventory status.";
          VStr "Detailed specifications for the upcoming Q1 product launch.";
          VStr "Short note about supply chain delay."];
       "author_name" := [VStr "Jane Doe"; VStr "John Smith"; VStr "Alice"; VStr "Bob"];
       "in_stock" := [VBool true; VBool false; VBool true; VBool false] ]}.

(** File paths are not URLs, the two URLs of the tests are; every file read
    gives [mock_csv]. *)
Definition test_world : file_handlers.World :=
  file_handlers.mkWorld
    (λ s, Return (if String.prefix "https://" s then "https" else ""))
    (λ _ _, Return mock_csv).

(** A store that hands out its triples in the order of insertion. *)
Definition insertion_order : rdf_storage.Store :=
  rdf_storage.mkStore (λ g, g) (λ g, reflexivity g).

(** A record as the scoring stage returns it. *)
Definition classified_review : gmap string value :=
  {[ "id" := VInt 1; "raw_text" := VStr "Great camera."; "in_stock" := VBool true;
     "llm_classification" := VStr "ProductReview";
     "inventory_velocity" := VFloat f0_5;
     "priority_score" := VFloat (float_of_int 3) ]}.

(** The graphs of two small batches, computed by [convert_to_rdf]. *)
Definition review_graph : list rdf_storage.triple := Eval vm_compute in
  match rdf_storage.convert_to_rdf builtins insertion_order [review; zeroth] with
  | Return ts => ts
  | Raise _ => []
  end.

Definition classified_graph : list rdf_storage.triple := Eval vm_compute in
  match rdf_storage.convert_to_rdf builtins insertion_order [classified_review] with
  | Return ts => ts
  | Raise _ => []
  end.

(** The two records [review] and [untexted] after classification. *)
Definition classified_review0 : gmap string value :=
  {[ "id" := VInt 1; "raw_text" := VStr "Great camera.";
     "llm_classification" := VStr "ProductReview" ]}.

Definition classified_untexted : gmap string value :=
  {[ "id" := VInt 2; "raw_text" := VStr "";
     "llm_classification" := VStr "ProductReview" ]}.

Definition classified_pair : ProcessedData := [classified_review0; classified_untexted].

(** A CSV file of two rows without an [id] column. *)
Definition idless_frame : pd.Frame :=
  pd.mkFrame 2 {[ "raw_text" := [VStr "First note."; VStr "Second note."] ]}.

Definition idless_csv : file_handlers.World :=
  file_handlers.mkWorld (λ _, Return "") (λ _ _, Return idless_frame).

(** The file of the tests is still empty at the first call, where
    [pd.read_csv] raises its [EmptyDataError] (a [ValueError]), and complete
    from the second call on. *)
Definition late_csv : file_handlers.World :=
  file_handlers.mkWorld
    (λ _, Return "")
    (λ k _, match k with
            | O => Raise (ValueError "No columns to parse from file")
            | _ => Return mock_csv
            end).

(** [classified_pair] after scoring, with the velocities 0.0 and 0.75. *)
Definition scored_review : gmap string value :=
  <["priority_score" := VFloat (float_of_int 2)]>
    (<["inventory_velocity" := VFloat flow.f0_0]> classified_review0).

Definition scored_untexted : gmap string value :=
  <["priority_score" := VFloat (float_of_int 2)]>
    (<["inventory_velocity" := VFloat (binary_normalize prec emax 3 (-2) false)]>
       classified_untexted).

Definition scored_pair : ProcessedData := [scored_review; scored_untexted].

(** A batch in which only the first record has [in_stock], and what scoring
    makes of it. *)
Definition mixed_stock : ProcessedData :=
  [<["in_stock" := VBool false]> classified_untexted; classified_review0].

Definition scored_unstocked : gmap string value :=
  <["priority_score" := VFloat (float_of_int 3)]>
    (<["inventory_velocity" := VFloat (binary_normalize prec emax 3 (-2) false)]>
       (<["in_stock" := VFloat nan]> classified_review0)).

Definition scored_mixed_stock : ProcessedData :=
  [<["priority_score" := VFloat (float_of_int 2)]>
     (<["inventory_velocity" := VFloat flow.f0_0]>
        (<["in_stock" := VBool false]> classified_untexted));
   scored_unstocked].

(** The batch of the test file after classification. *)
Definition classified_mock_csv : ProcessedData := Eval vm_compute in
  match flow.run_llm_classification
          (file_handlers.CSVFileHandler_parse test_world 0 "/tmp/mock_data.csv") with
  | Return out => out
  | Raise _ => []
  end.

End sample.

(** * Properties *)

(** ** Validation *)

Lemma validate_true_iff (data : ProcessedData) :
  file_handlers.validate data = true ↔
  data ≠ [] ∧ Forall (λ record, is_Some (record !! "id") ∧ is_Some (record !! "raw_text")) data.
Proof.
  unfold file_handlers.validate.
  destruct (bool_decide_reflect (data ≠ [])) as [Hne | He]; simpl.
  - destruct (forallb _ data) eqn:Hall; simpl.
    + split; [intros _ | done]. split; [done |].
      apply Forall_forall. intros record Hin.
      rewrite forallb_forall in Hall.
      specialize (Hall record (proj1 (list_elem_of_In _ _) Hin)).
      apply andb_prop in Hall as [H1 H2].
      unfold contains in *. by rewrite !bool_decide_eq_true in *.
    + split; [done |]. intros [_ Hall'].
      assert (forallb (λ record, contains record "id" && contains record "raw_text") data = true)
        as Hcontra; [| congruence].
      apply forallb_forall. intros record Hin.
      rewrite Forall_forall in Hall'.
      destruct (Hall' record (proj2 (list_elem_of_In _ _) Hin)) as [H1 H2].
      unfold contains. by rewrite !bool_decide_true.
  - split; [done |]. intros [Hne _]. by destruct He.
Qed.

Lemma validate_false_iff (data : ProcessedData) :
  file_handlers.validate data = false ↔
  data = [] ∨ Exists (λ record, record !! "id" = None ∨ record !! "raw_text" = None) data.
Proof.
  rewrite <- not_true_iff_false, validate_true_iff.
  split.
  - intros Hn. destruct data as [| r data']; [by left |]. right.
    assert (¬ Forall (λ record : gmap string value,
              is_Some (record !! "id") ∧ is_Some (record !! "raw_text")) (r :: data')) as Hnall
      by (intros Hall; by apply Hn).
    apply not_Forall_Exists in Hnall; [| solve_decision].
    eapply Exists_impl; [exact Hnall |]. intros x Hx. simpl in Hx.
    destruct (x !! "id"); [| by left].
    destruct (x !! "raw_text"); [| by right].
    destruct Hx. by split.
  - intros [-> | Hex] [Hne Hall]; [done |].
    apply Exists_exists in Hex as (r & Hin & Hlack).
    rewrite Forall_forall in Hall. destruct (Hall r Hin) as [[? H1] [? H2]].
    destruct Hlack; congruence.
Qed.

(** C6.  On a non-empty batch, [validate] is false as soon as one record
    lacks [id] or [raw_text], and true when every record has [id] and a
    non-empty [raw_text]; on the empty batch it is false. *)
Theorem validate_complete (data : ProcessedData) :
  (data ≠ [] →
   (∃ record, record ∈ data ∧ (record !! "id" = None ∨ record !! "raw_text" = None)) →
   file_handlers.validate data = false) ∧
  (data ≠ [] →
   (∀ record, record ∈ data →
      is_Some (record !! "id") ∧
      ∃ text, record !! "raw_text" = Some text ∧ text ≠ VStr "") →
   file_handlers.validate data = true) ∧
  file_handlers.validate [] = false.
Proof.
  split; [| split].
  - intros _ Hex. apply validate_false_iff. right. by apply Exists_exists.
  - intros Hne Hall. apply validate_true_iff. split; [done |].
    apply Forall_forall. intros record Hin.
    destruct (Hall record Hin) as [Hid (text & Htext & _)].
    split; [done | by exists text].
  - reflexivity.
Qed.

Lemma validate_complete_witness :
  file_handlers.validate [sample.review; sample.untexted] = false ∧
  file_handlers.validate [sample.review] = true.
Proof.
  split.
  - apply (proj1 (validate_complete [sample.review; sample.untexted])); [done |].
    exists sample.untexted. split; [| by right].
    apply list_elem_of_In. right. by left.
  - apply (proj1 (proj2 (validate_complete [sample.review]))); [done |].
    intros record Hin. apply list_elem_of_singleton in Hin as ->.
    split; [by eexists |]. by exists (VStr "Great camera.").
Defined.

(** C9.  [validate] looks at the keys only: a non-empty batch whose records
    all have the keys [id] and [raw_text] is valid whatever the values are,
    the empty string and [None] included. *)
Theorem validate_checks_presence_only (data : ProcessedData) :
  data ≠ [] →
  (∀ record, record ∈ data →
     is_Some (record !! "id") ∧ is_Some (record !! "raw_text")) →
  file_handlers.validate data = true.
Proof.
  intros Hne Hall. apply validate_true_iff. split; [done |].
  by apply Forall_forall.
Qed.

Lemma validate_checks_presence_only_witness :
  sample.hollow !! "id" = Some VNone ∧
  sample.hollow !! "raw_text" = Some (VStr "") ∧
  file_handlers.validate [sample.hollow] = true.
Proof.
  split; [reflexivity |]. split; [reflexivity |].
  apply (validate_checks_presence_only [sample.hollow]); [done |].
  intros record Hin. apply list_elem_of_singleton in Hin as ->.
  split; by eexists.
Defined.

(** ** The priority score *)

Lemma priority_points_cases (row : gmap string value) :
  flow.priority_points row ∈ [0; 2; 3; 4; 5].
Proof.
  unfold flow.priority_points.
  destruct (eq_str _ "DetailedSpec") eqn:Hd;
  destruct (eq_str _ "ProductReview") eqn:Hp;
  destruct (truthy _); simpl; set_solver.
Qed.

(** C8.  The priority score of any row lies in [0, 5]; the integer score is at
    most 5 before the last line, and neither [score / 5.0 * 5.0] nor the
    [min] with 5.0 changes it. *)
Theorem calculate_priority_bounds (row : gmap string value) :
  (0 ≤ flow.priority_points row ≤ 5)%Z ∧
  flow.rescaled (flow.priority_points row) = float_of_int (flow.priority_points row) ∧
  Py.min (flow.rescaled (flow.priority_points row)) flow.f5_0
    = flow.rescaled (flow.priority_points row) ∧
  flow.calculate_priority row = float_of_int (flow.priority_points row) ∧
  fle flow.f0_0 (flow.calculate_priority row) = true ∧
  fle (flow.calculate_priority row) flow.f5_0 = true.
Proof.
  unfold flow.calculate_priority.
  pose proof (priority_points_cases row) as Hc.
  repeat (apply elem_of_cons in Hc as [-> | Hc]);
    [| | | | | by apply elem_of_nil in Hc];
    (split; [lia |]); vm_compute; auto.
Qed.

(** ** Frames *)

Lemma length_to_dict_records (df : pd.Frame) :
  length (pd.to_dict_records df) = pd.nrows df.
Proof. unfold pd.to_dict_records. by rewrite length_fmap, length_seq. Qed.

Lemma to_dict_records_lookup (df : pd.Frame) (i : nat) :
  (i < pd.nrows df)%nat → pd.to_dict_records df !! i = Some (pd.row df i).
Proof.
  intros Hi. unfold pd.to_dict_records.
  by rewrite list_lookup_fmap, lookup_seq_lt.
Qed.

Lemma to_dict_records_setitem (df : pd.Frame) (c : string) (series : list value) :
  length series = pd.nrows df →
  pd.to_dict_records (pd.setitem df c series)
  = zip_with (λ r x, <[c := x]> r) (pd.to_dict_records df) series.
Proof.
  intros Hlen. apply list_eq. intros i.
  rewrite lookup_zip_with.
  destruct (decide (i < pd.nrows df)%nat) as [Hi | Hi].
  - rewrite !to_dict_records_lookup by done. simpl.
    destruct (lookup_lt_is_Some_2 series i) as [x Hx]; [lia |].
    rewrite Hx. simpl. f_equal. unfold pd.row, pd.setitem. simpl.
    by apply omap_insert_Some.
  - rewrite (lookup_ge_None_2 (pd.to_dict_records (pd.setitem df c series)))
      by (rewrite length_to_dict_records; simpl; lia).
    rewrite (lookup_ge_None_2 (pd.to_dict_records df))
      by (rewrite length_to_dict_records; lia).
    done.
Qed.

Lemma map_rows_length {S A} (f : gmap string value → S → A * S) rows s :
  length (pd.map_rows f rows s).1 = length rows.
Proof.
  revert s. induction rows as [| r rows IH]; intros s; simpl; [done |].
  destruct (f r s) as [a s1]. specialize (IH s1).
  destruct (pd.map_rows f rows s1) as [rest s2]. simpl in *. by rewrite IH.
Qed.

Lemma map_rows_pure {S A} (f : gmap string value → A) rows (s : S) :
  pd.map_rows (λ r s, (f r, s)) rows s = (f <$> rows, s).
Proof.
  induction rows as [| r rows IH]; simpl; [done |]. by rewrite IH.
Qed.

Lemma apply_axis1_length {S A} (f : gmap string value → S → A * S) df s :
  length (pd.apply_axis1 f df s).1 = pd.nrows df.
Proof.
  unfold pd.apply_axis1. case_bool_decide as Hc.
  - destruct (f _ s) as [probe s1]. destruct (pd.nrows df) as [| n]; [done |].
    destruct (f ∅ s1) as [r s2]. simpl. by rewrite length_replicate.
  - by rewrite map_rows_length, length_to_dict_records.
Qed.

Lemma apply_axis1_pure {S A} (f : gmap string value → A) df (s : S) :
  pd.columns df ≠ ∅ →
  (pd.apply_axis1 (λ r s, (f r, s)) df s).1 = f <$> pd.to_dict_records df.
Proof.
  intros Hcols. unfold pd.apply_axis1. case_bool_decide as Hc.
  - destruct Hc as [H0 | He]; [| done].
    unfold pd.to_dict_records. by rewrite H0.
  - by rewrite map_rows_pure.
Qed.

(** ** The scoring stage, row by row *)

Lemma calculate_priority_insert_velocity (r : gmap string value) (v : value) :
  flow.calculate_priority (<["inventory_velocity" := v]> r) = flow.calculate_priority r.
Proof.
  unfold flow.calculate_priority, flow.priority_points, get.
  by rewrite !lookup_insert_ne.
Qed.

Lemma run_dask_analysis_exact (I : pd.dtype_inference) (data : ProcessedData)
    (g : np.RandomState) :
  (flow.run_dask_analysis I data g).1 =
    match data with
    | [] => Raise IndexError
    | _ => Return (zip_with scored (pd.to_dict_records (pd.DataFrame I data))
                                   (velocity_series I data g))
    end.
Proof.
  unfold flow.run_dask_analysis, velocity_series.
  pose proof (apply_axis1_length flow.inventory_velocity (pd.DataFrame I data) g) as Hlen.
  destruct (pd.apply_axis1 flow.inventory_velocity (pd.DataFrame I data) g)
    as [velocity g1]. simpl in Hlen.
  change ((velocity, g1).1) with velocity.
  set (df1 := pd.setitem (pd.DataFrame I data) "inventory_velocity" (VFloat <$> velocity)).
  pose proof (apply_axis1_pure flow.calculate_priority df1 g1) as Hpure.
  pose proof (apply_axis1_length (λ row s, (flow.calculate_priority row, s)) df1 g1) as Hlen2.
  destruct (pd.apply_axis1 (λ row s, (flow.calculate_priority row, s)) df1 g1)
    as [priority g2]. simpl in Hpure, Hlen2.
  rewrite Hpure in * by (subst df1; simpl; apply insert_non_empty).
  rewrite to_dict_records_setitem by (rewrite length_fmap, length_fmap, length_to_dict_records; done).
  subst df1.
  rewrite to_dict_records_setitem by (rewrite length_fmap; done).
  set (rows := pd.to_dict_records (pd.DataFrame I data)).
  assert (zip_with (λ r x, <["priority_score" := x]> r)
            (zip_with (λ r x, <["inventory_velocity" := x]> r) rows (VFloat <$> velocity))
            (VFloat <$> (flow.calculate_priority <$>
               zip_with (λ r x, <["inventory_velocity" := x]> r) rows (VFloat <$> velocity)))
          = zip_with scored rows velocity) as ->.
  { clear. revert velocity.
    induction rows as [| r rows IH]; intros [| v velocity]; simpl; [done .. |].
    f_equal; [| apply IH].
    unfold scored. by rewrite calculate_priority_insert_velocity. }
  assert (length rows = length data) as Hrows
    by (subst rows; by rewrite length_to_dict_records).
  destruct data as [| r0 data'].
  - destruct velocity; [| done]. by destruct rows.
  - destruct rows as [| row0 rows']; [done |].
    destruct velocity as [| v0 velocity']; [done |]. done.
Qed.

Lemma run_dask_analysis_rows (I : pd.dtype_inference) (data : ProcessedData)
    (g : np.RandomState) :
  ∃ velocity : list spec_float,
    length velocity = length data ∧
    (flow.run_dask_analysis I data g).1 =
      match data with
      | [] => Raise IndexError
      | _ => Return (zip_with scored (pd.to_dict_records (pd.DataFrame I data)) velocity)
      end.
Proof.
  exists (velocity_series I data g). split.
  - unfold velocity_series. by rewrite apply_axis1_length.
  - apply run_dask_analysis_exact.
Qed.

(** Row [i] of a frame after [df[c] = series]. *)
Lemma row_setitem (df : pd.Frame) (c : string) (series : list value) (i : nat) (x : value) :
  series !! i = Some x →
  pd.row (pd.setitem df c series) i = <[c := x]> (pd.row df i).
Proof. intros Hx. unfold pd.row, pd.setitem. simpl. by apply omap_insert_Some. Qed.

(** Either branch of the velocity lambda draws exactly one sample. *)
Lemma inventory_velocity_draws_one (row : gmap string value) (g : np.RandomState) :
  (flow.inventory_velocity row g).2 = λ n, g (S n).
Proof. unfold flow.inventory_velocity. by destruct (_ && _). Qed.

Lemma map_rows_lookup {A} (f : gmap string value → np.RandomState → A * np.RandomState)
    (rows : list (gmap string value)) (g : np.RandomState) (i : nat) (r : gmap string value) :
  (∀ r g, (f r g).2 = λ n, g (S n)) →
  rows !! i = Some r →
  (pd.map_rows f rows g).1 !! i = Some (f r (λ n, g (i + n)%nat)).1.
Proof.
  intros Hf. revert g i.
  induction rows as [| r0 rows IH]; intros g i Hi; [done |].
  simpl. specialize (Hf r0 g) as Hs.
  destruct (f r0 g) as [a s1] eqn:Hfr. simpl in Hs. subst s1.
  specialize (IH (λ n, g (S n))).
  destruct (pd.map_rows f rows (λ n, g (S n))) as [rest s2]. simpl in *.
  destruct i as [| i].
  - injection Hi as <-. simpl. change (λ n, g n) with g. by rewrite Hfr.
  - simpl. by apply IH.
Qed.

(** When the batch has a field, the velocity of row [i] is the lambda's value
    on that row with the generator as the [i] rows before it left it. *)
Lemma velocity_series_lookup (I : pd.dtype_inference) (data : ProcessedData)
    (g : np.RandomState) (i : nat) :
  pd.field_names data ≠ ∅ → (i < length data)%nat →
  velocity_series I data g !! i
  = Some (flow.inventory_velocity (pd.row (pd.DataFrame I data) i) (λ n, g (i + n)%nat)).1.
Proof.
  intros Hfields Hi. unfold velocity_series, pd.apply_axis1.
  rewrite bool_decide_eq_false_2.
  - apply map_rows_lookup; [apply inventory_velocity_draws_one |].
    by apply to_dict_records_lookup.
  - intros [H0 | Hcols].
    + simpl in H0. lia.
    + apply set_choose_L in Hfields as [k Hk].
      apply (f_equal (λ m : gmap string (list value), m !! k)) in Hcols.
      simpl in Hcols.
      rewrite map_lookup_imap, lookup_gset_to_gmap, option_guard_True in Hcols by done.
      by rewrite lookup_empty in Hcols.
Qed.

Lemma fmap_zip_with_scored {B} (h h' : gmap string value → B) rows (velocity : list spec_float) :
  (∀ r v, h (scored r v) = h' r) →
  length velocity = length rows →
  h <$> zip_with scored rows velocity = h' <$> rows.
Proof.
  intros Hh. revert velocity.
  induction rows as [| r rows IH]; intros [| v velocity] Hlen; simpl in *; try done.
  f_equal; [apply Hh | apply IH; lia].
Qed.

Lemma delete_velocity_scored (r : gmap string value) (v : spec_float) :
  delete "inventory_velocity" (scored r v)
  = <["priority_score" := VFloat (flow.calculate_priority r)]> (delete "inventory_velocity" r).
Proof.
  unfold scored.
  rewrite delete_insert_ne by done. by rewrite delete_insert_eq.
Qed.

Lemma priority_of_scored (r : gmap string value) (v : spec_float) :
  scored r v !! "priority_score" = Some (VFloat (flow.calculate_priority r)).
Proof. unfold scored. by rewrite lookup_insert_eq. Qed.

(** C1.  On the empty batch the classification stage returns the empty batch;
    the scoring stage does not return: reading [final_data[0]] for its last
    [print] raises [IndexError]. *)
Theorem empty_batch_at_enrichment (I : pd.dtype_inference) (g : np.RandomState) :
  flow.run_llm_classification [] = Return [] ∧
  (flow.run_dask_analysis I [] g).1 = Raise IndexError.
Proof.
  split; [reflexivity |].
  destruct (run_dask_analysis_rows I [] g) as (velocity & _ & ->). reflexivity.
Qed.

(** C2, as the code has it.  Two runs of the scoring stage on one batch end
    the same way and agree on every field but [inventory_velocity], which is
    drawn from [np.random]; in particular they agree on [priority_score]. *)
Theorem scoring_deterministic_up_to_velocity (I : pd.dtype_inference)
    (data : ProcessedData) (g1 g2 : np.RandomState) :
  match (flow.run_dask_analysis I data g1).1, (flow.run_dask_analysis I data g2).1 with
  | Return out1, Return out2 =>
      delete "inventory_velocity" <$> out1 = delete "inventory_velocity" <$> out2 ∧
      column_of "priority_score" (Return out1) = column_of "priority_score" (Return out2)
  | Raise e1, Raise e2 => e1 = e2
  | _, _ => False
  end.
Proof.
  destruct (run_dask_analysis_rows I data g1) as (v1 & Hl1 & ->).
  destruct (run_dask_analysis_rows I data g2) as (v2 & Hl2 & ->).
  destruct data as [| r0 data']; [done |].
  set (rows := pd.to_dict_records (pd.DataFrame I (r0 :: data'))).
  assert (length rows = length (r0 :: data')) as Hrows
    by (subst rows; by rewrite length_to_dict_records).
  split.
  - rewrite !(fmap_zip_with_scored _ _ rows _ delete_velocity_scored) by congruence.
    done.
  - unfold column_of, bind. f_equal.
    etrans; [| symmetry];
      apply (fmap_zip_with_scored _ (λ r, Some (VFloat (flow.calculate_priority r))));
      (apply priority_of_scored || congruence).
Qed.

(** C2 fails as stated: called twice in a row on the same one-record batch,
    the stage returns two different velocities (0.0, then 0.75). *)
Lemma scoring_twice_differs :
  (run_dask_analysis_twice object_dtype [sample.review] sample.zero_then_half).1
  ≠ (run_dask_analysis_twice object_dtype [sample.review] sample.zero_then_half).2.
Proof.
  intros H. apply (f_equal (column_of "inventory_velocity")) in H.
  vm_compute in H. discriminate H.
Qed.

(** ** The frame of a batch *)

Lemma elem_of_field_names (data : ProcessedData) (k : string) :
  k ∈ pd.field_names data ↔ ∃ record, record ∈ data ∧ is_Some (record !! k).
Proof.
  unfold pd.field_names. rewrite elem_of_union_list. split.
  - intros (X & HX & Hk). apply list_elem_of_fmap in HX as (record & -> & Hin).
    exists record. split; [done |]. by apply elem_of_dom.
  - intros (record & Hin & Hk). exists (dom record). split.
    + apply list_elem_of_fmap. by exists record.
    + by apply elem_of_dom.
Qed.

Lemma DataFrame_row_lookup (I : pd.dtype_inference) (data : ProcessedData) (i : nat) (k : string) :
  pd.row (pd.DataFrame I data) i !! k =
    if decide (k ∈ pd.field_names data)
    then pd.infer_column I ((λ record : gmap string value, record !! k) <$> data) !! i
    else None.
Proof.
  unfold pd.row, pd.DataFrame. simpl.
  rewrite lookup_omap, map_lookup_imap, lookup_gset_to_gmap.
  destruct (decide (k ∈ pd.field_names data)) as [Hk | Hk].
  - by rewrite option_guard_True.
  - by rewrite option_guard_False.
Qed.

Lemma DataFrame_row_dom (I : pd.dtype_inference) (data : ProcessedData) (i : nat) :
  (i < length data)%nat →
  dom (pd.row (pd.DataFrame I data) i) = pd.field_names data.
Proof.
  intros Hi. apply set_eq. intros k.
  rewrite elem_of_dom, DataFrame_row_lookup.
  destruct (decide (k ∈ pd.field_names data)) as [Hk | Hk].
  - split; [done | intros _].
    apply lookup_lt_is_Some_2.
    by rewrite pd.infer_column_length, length_fmap.
  - split; [by intros [? ?] | done].
Qed.

Lemma DataFrame_row_gap (I : pd.dtype_inference) (data : ProcessedData) (i : nat)
    (record : gmap string value) (k : string) :
  data !! i = Some record → record !! k = None → k ∈ pd.field_names data →
  pd.row (pd.DataFrame I data) i !! k = Some (VFloat nan).
Proof.
  intros Hi Hk Hin. rewrite DataFrame_row_lookup, decide_True by done.
  apply pd.infer_column_gap. by rewrite list_lookup_fmap, Hi; simpl; rewrite Hk.
Qed.

(** C10, as the code has it.  On a non-empty batch the scoring stage returns
    one record per input record; each holds every field name of the batch and
    the two computed fields, and holds NaN under every field name of the batch,
    other than the two computed ones, that its input record lacked.  The two
    computed fields hold what the stage computes for the row: under
    [inventory_velocity] the value of the velocity lambda for that row (when
    the batch has a field: the lambda on that row of the frame, drawing the
    sample that follows those of the rows before it), under [priority_score]
    the value of [calculate_priority] on that row of the frame with the
    velocity column, which is its value on the row of the frame of the
    batch. *)
Theorem scoring_fills_gaps (I : pd.dtype_inference) (data : ProcessedData)
    (g : np.RandomState) :
  data ≠ [] →
  ∃ out,
    (flow.run_dask_analysis I data g).1 = Return out ∧
    length out = length data ∧
    ∀ i record_in record_out,
      data !! i = Some record_in → out !! i = Some record_out →
      dom record_out = pd.field_names data ∪ {["inventory_velocity"; "priority_score"]} ∧
      (∀ k, k ∈ pd.field_names data →
            k ≠ "inventory_velocity" → k ≠ "priority_score" →
            record_in !! k = None → record_out !! k = Some (VFloat nan)) ∧
      (∃ v, velocity_series I data g !! i = Some v ∧
            record_out !! "inventory_velocity" = Some (VFloat v) ∧
            (pd.field_names data ≠ ∅ →
             v = (flow.inventory_velocity (pd.row (pd.DataFrame I data) i)
                    (λ n, g (i + n)%nat)).1)) ∧
      record_out !! "priority_score"
        = Some (VFloat (flow.calculate_priority (pd.row (frame_with_velocity I data g) i))) ∧
      flow.calculate_priority (pd.row (frame_with_velocity I data g) i)
        = flow.calculate_priority (pd.row (pd.DataFrame I data) i).
Proof.
  intros Hne.
  pose proof (run_dask_analysis_exact I data g) as Hrun.
  assert (length (velocity_series I data g) = length data) as Hlen
    by (unfold velocity_series; by rewrite apply_axis1_length).
  assert (pd.nrows (pd.DataFrame I data) = length data) as Hn by done.
  destruct data as [| r0 data']; [done |].
  eexists. split; [exact Hrun |]. split.
  - rewrite length_zip_with_l_eq; rewrite length_to_dict_records; congruence.
  - intros i record_in record_out Hin Hout.
    apply lookup_zip_with_Some in Hout as (r & v & -> & Hr & Hv).
    assert (i < length (r0 :: data'))%nat as Hi by (by eapply lookup_lt_Some).
    rewrite to_dict_records_lookup in Hr by (rewrite Hn; exact Hi).
    injection Hr as <-.
    assert (pd.row (frame_with_velocity I (r0 :: data') g) i
            = <["inventory_velocity" := VFloat v]> (pd.row (pd.DataFrame I (r0 :: data')) i))
      as Hrow.
    { unfold frame_with_velocity. apply row_setitem.
      by rewrite list_lookup_fmap, Hv. }
    split; [| split; [| split; [| split]]].
    + unfold scored. rewrite !dom_insert_L, DataFrame_row_dom by done.
      apply set_eq. intros x. rewrite !elem_of_union, !elem_of_singleton. tauto.
    + intros k Hk Hv' Hp Hgap. unfold scored.
      rewrite !lookup_insert_ne by done.
      by eapply DataFrame_row_gap.
    + exists v. split; [done |]. split.
      * unfold scored. rewrite lookup_insert_ne by done. by rewrite lookup_insert_eq.
      * intros Hfields.
        rewrite (velocity_series_lookup I (r0 :: data') g i Hfields Hi) in Hv.
        by injection Hv as <-.
    + rewrite Hrow, calculate_priority_insert_velocity. apply priority_of_scored.
    + by rewrite Hrow, calculate_priority_insert_velocity.
Qed.

Lemma scoring_fills_gaps_witness :
  [sample.review; sample.untexted] ≠ [] ∧
  ∃ out,
    (flow.run_dask_analysis object_dtype [sample.review; sample.untexted]
       sample.zero_then_half).1 = Return out ∧
    length out = length [sample.review; sample.untexted] ∧
    ∀ i record_in record_out,
      [sample.review; sample.untexted] !! i = Some record_in → out !! i = Some record_out →
      dom record_out = pd.field_names [sample.review; sample.untexted]
                         ∪ {["inventory_velocity"; "priority_score"]} ∧
      (∀ k, k ∈ pd.field_names [sample.review; sample.untexted] →
            k ≠ "inventory_velocity" → k ≠ "priority_score" →
            record_in !! k = None → record_out !! k = Some (VFloat nan)) ∧
      (∃ v, velocity_series object_dtype [sample.review; sample.untexted]
              sample.zero_then_half !! i = Some v ∧
            record_out !! "inventory_velocity" = Some (VFloat v) ∧
            (pd.field_names [sample.review; sample.untexted] ≠ ∅ →
             v = (flow.inventory_velocity
                    (pd.row (pd.DataFrame object_dtype [sample.review; sample.untexted]) i)
                    (λ n, sample.zero_then_half (i + n)%nat)).1)) ∧
      record_out !! "priority_score"
        = Some (VFloat (flow.calculate_priority
                          (pd.row (frame_with_velocity object_dtype
                                     [sample.review; sample.untexted]
                                     sample.zero_then_half) i))) ∧
      flow.calculate_priority
        (pd.row (frame_with_velocity object_dtype [sample.review; sample.untexted]
                   sample.zero_then_half) i)
        = flow.calculate_priority
            (pd.row (pd.DataFrame object_dtype [sample.review; sample.untexted]) i).
Proof.
  split; [done |].
  apply (scoring_fills_gaps object_dtype [sample.review; sample.untexted]
           sample.zero_then_half).
  done.
Defined.

(** C10 fails as stated when the missing field is one the stage computes: the
    second record lacks [priority_score], which the first one has, and comes
    back with the score 0.0 under it, not with NaN. *)
Lemma scoring_overwrites_priority_gap :
  "priority_score" ∈ pd.field_names [sample.rated; sample.review] ∧
  sample.review !! "priority_score" = None ∧
  column_of "priority_score"
    (flow.run_dask_analysis object_dtype [sample.rated; sample.review] sample.zero_then_half).1
  = Return [Some (VFloat flow.f0_0); Some (VFloat flow.f0_0)] ∧
  VFloat flow.f0_0 ≠ VFloat nan.
Proof.
  split; [| split; [| split]].
  - apply elem_of_field_names. exists sample.rated. split; [by left | by eexists].
  - reflexivity.
  - vm_compute. reflexivity.
  - vm_compute. discriminate.
Qed.

(** ** The two sources of test_main.py, stage by stage *)

Example test_case_1_file_ingestion :
  column_of "llm_classification"
    (do raw <- flow.ingest_and_validate sample.test_world "/tmp/mock_data.csv" 0;
     flow.run_llm_classification raw)
  = Return [Some (VStr "DetailedSpec"); Some (VStr "ProductReview");
            Some (VStr "DetailedSpec"); Some (VStr "ProductReview")] ∧
  column_of "priority_score"
    (do raw <- flow.ingest_and_validate sample.test_world "/tmp/mock_data.csv" 0;
     do classified <- flow.run_llm_classification raw;
     (flow.run_dask_analysis object_dtype classified sample.zero_then_half).1)
  = Return [Some (VFloat (float_of_int 4)); Some (VFloat (float_of_int 2));
            Some (VFloat (float_of_int 4)); Some (VFloat (float_of_int 2))] ∧
  (do raw <- flow.ingest_and_validate sample.test_world "/tmp/mock_data.csv" 0;
   do classified <- flow.run_llm_classification raw;
   do analyzed <- (flow.run_dask_analysis object_dtype classified sample.zero_then_half).1;
   do triples <- rdf_storage.convert_to_rdf sample.builtins sample.insertion_order analyzed;
   Return (length triples))
  = Return 48%nat.
Proof. vm_compute. repeat split; reflexivity. Qed.

Example test_case_2_url_ingestion :
  column_of "id"
    (flow.ingest_and_validate sample.test_world
       "https://www.example.com/ecommerce-report-2025" 0)
  = Return [Some (VInt 101); Some (VInt 102)] ∧
  (do raw <- flow.ingest_and_validate sample.test_world
              "https://www.example.com/ecommerce-report-2025" 0;
   do classified <- flow.run_llm_classification raw;
   do analyzed <- (flow.run_dask_analysis object_dtype classified sample.zero_then_half).1;
   do triples <- rdf_storage.convert_to_rdf sample.builtins sample.insertion_order analyzed;
   Return (length triples))
  = Return 24%nat.
Proof. vm_compute. repeat split; reflexivity. Qed.

(** ** Ingestion and its retries *)

Lemma run_from_all_raise {A} (fn : nat → result A) (e : exn) (delays : list Z)
    (retries k : nat) :
  (∀ j, (k ≤ j ≤ k + retries)%nat → fn j = Raise e) →
  prefect.state (prefect.run_from retries delays fn k) = Raise e ∧
  prefect.run_count (prefect.run_from retries delays fn k) = S retries ∧
  prefect.slept (prefect.run_from retries delays fn k)
    = (λ j, prefect.retry_delay delays j) <$> seq k retries.
Proof.
  revert k. induction retries as [| retries IH]; intros k Hall; simpl.
  - rewrite (Hall k) by lia. done.
  - rewrite (Hall k) by lia.
    destruct (IH (S k)) as (Hs & Hc & Hd); [intros j Hj; apply Hall; lia |].
    simpl. by rewrite Hs, Hc, Hd.
Qed.

Lemma run_from_first_success {A} (fn : nat → result A) (a : A) (delays : list Z)
    (retries k j : nat) :
  (j ≤ retries)%nat →
  (∀ i, (k ≤ i < k + j)%nat → ∃ e, fn i = Raise e) →
  fn (k + j)%nat = Return a →
  prefect.state (prefect.run_from retries delays fn k) = Return a ∧
  prefect.run_count (prefect.run_from retries delays fn k) = S j ∧
  prefect.slept (prefect.run_from retries delays fn k)
    = (λ i, prefect.retry_delay delays i) <$> seq k j.
Proof.
  revert retries k. induction j as [| j IH]; intros retries k Hj Hfail Hok.
  - rewrite Nat.add_0_r in Hok. destruct retries; simpl; by rewrite Hok.
  - destruct retries as [| retries]; [lia |].
    destruct (Hfail k) as [e He]; [lia |]. simpl. rewrite He.
    destruct (IH retries (S k)) as (Hs & Hc & Hd).
    + lia.
    + intros i Hi. apply Hfail. lia.
    + by replace (S k + j)%nat with (k + S j)%nat by lia.
    + simpl. by rewrite Hs, Hc, Hd.
Qed.


Lemma CSVFileHandler_parse_unreadable (W : file_handlers.World) (k : nat) (path : string) (e : exn) :
  file_handlers.read_csv W k path = Raise e →
  file_handlers.CSVFileHandler_parse W k path = [].
Proof. intros H. unfold file_handlers.CSVFileHandler_parse. by rewrite H. Qed.

Lemma ingest_and_validate_raises (W : file_handlers.World) (source_identifier : string) (k : nat) :
  ingestion_failure W source_identifier k →
  flow.ingest_and_validate W source_identifier k = Raise ingestion_error.
Proof.
  intros Hfail. unfold flow.ingest_and_validate.
  destruct Hfail as [e Hh Hread | Hempty | Hinvalid].
  - rewrite Hh. simpl. by rewrite (CSVFileHandler_parse_unreadable _ _ _ e).
  - by rewrite Hempty.
  - rewrite Hinvalid. simpl. by rewrite orb_true_r.
Qed.

(** C3, as the code has it.  Ingestion does not tell the kinds of failure
    apart: an unreadable file, an empty batch and an invalid batch all raise
    the same [ValueError], and the task is run again after each, with delays of
    5, 10 and 30 seconds; when all four runs fail the task has failed. *)
Theorem ingest_retries_every_failure (W : file_handlers.World) (source_identifier : string) :
  (∀ k, (k ≤ 3)%nat → ingestion_failure W source_identifier k) →
  prefect.state (flow.ingest_task W source_identifier) = Raise ingestion_error ∧
  prefect.run_count (flow.ingest_task W source_identifier) = 4%nat ∧
  prefect.slept (flow.ingest_task W source_identifier) = [5; 10; 30].
Proof.
  intros Hfail. unfold flow.ingest_task, prefect.task.
  apply (run_from_all_raise _ ingestion_error [5; 10; 30] 3 0).
  intros j Hj. apply ingest_and_validate_raises, Hfail. lia.
Qed.

Lemma ingest_retries_every_failure_witness :
  (∀ k, (k ≤ 3)%nat → ingestion_failure sample.header_only_csv "data.csv" k) ∧
  prefect.state (flow.ingest_task sample.header_only_csv "data.csv") = Raise ingestion_error ∧
  prefect.run_count (flow.ingest_task sample.header_only_csv "data.csv") = 4%nat ∧
  prefect.slept (flow.ingest_task sample.header_only_csv "data.csv") = [5; 10; 30].
Proof.
  assert (∀ k, (k ≤ 3)%nat → ingestion_failure sample.header_only_csv "data.csv" k) as H
    by (intros k _; apply SourceEmpty; reflexivity).
  split; [exact H |].
  exact (ingest_retries_every_failure sample.header_only_csv "data.csv" H).
Defined.

(** A run that succeeds ends the task: after [j] failed runs, [j] at most 3,
    the delays slept are the first [j] of 5, 10 and 30 seconds. *)
Lemma ingest_stops_at_first_success (W : file_handlers.World) (source_identifier : string)
    (j : nat) (data : ProcessedData) :
  (j ≤ 3)%nat →
  (∀ k, (k < j)%nat → ingestion_failure W source_identifier k) →
  flow.ingest_and_validate W source_identifier j = Return data →
  prefect.state (flow.ingest_task W source_identifier) = Return data ∧
  prefect.run_count (flow.ingest_task W source_identifier) = S j ∧
  prefect.slept (flow.ingest_task W source_identifier) = take j [5; 10; 30].
Proof.
  intros Hj Hfail Hok. unfold flow.ingest_task, prefect.task.
  destruct (run_from_first_success (flow.ingest_and_validate W source_identifier)
              data [5; 10; 30] 3 0 j) as (Hs & Hc & Hd); [done | | done |].
  - intros i Hi. exists ingestion_error.
    apply ingest_and_validate_raises, Hfail. lia.
  - rewrite Hs, Hc, Hd. split; [done |]. split; [done |].
    destruct j as [| [| [| [| j]]]]; [done .. | lia].
Qed.

(** C3 fails as stated: with a CSV file that has no rows (an empty source),
    and with one that lacks the [raw_text] column (an invalid source), the
    task function is called four times and the engine sleeps 5, 10 and 30
    seconds in between; the run does not fail at once. *)
Lemma ingest_retries_permanent_failures :
  file_handlers.parse sample.header_only_csv 0
    (file_handlers.get_handler sample.header_only_csv "data.csv") = [] ∧
  prefect.run_count (flow.ingest_task sample.header_only_csv "data.csv") = 4%nat ∧
  prefect.slept (flow.ingest_task sample.header_only_csv "data.csv") = [5; 10; 30] ∧
  file_handlers.validate
    (file_handlers.parse sample.id_only_csv 0
       (file_handlers.get_handler sample.id_only_csv "data.csv")) = false ∧
  prefect.run_count (flow.ingest_task sample.id_only_csv "data.csv") = 4%nat ∧
  prefect.slept (flow.ingest_task sample.id_only_csv "data.csv") = [5; 10; 30].
Proof. vm_compute. repeat split; reflexivity. Qed.

(** ** Persistence *)

(** The persistence function does not reach the converter, let alone the
    sink: the first of the two names it calls is unbound in flow.py. *)
Lemma store_results_to_rocksdb_raises (final_data : ProcessedData) :
  flow.store_results_to_rocksdb final_data = Raise (NameError "convert_to_rdf").
Proof. reflexivity. Qed.




(** ** Graph mapping *)

Lemma add_NoDup (g : rdf_storage.Graph) (t : rdf_storage.triple) :
  NoDup g → NoDup (rdf_storage.add g t).
Proof.
  intros Hg. unfold rdf_storage.add. case_bool_decide as Hin; [done |].
  apply NoDup_app. split; [done |]. split.
  - intros x Hx Hx'. apply list_elem_of_singleton in Hx' as ->. done.
  - apply NoDup_singleton.
Qed.

Ltac graph_NoDup :=
  repeat first
    [ assumption
    | apply add_NoDup
    | match goal with |- NoDup (if ?b then _ else _) => destruct b end ].

Lemma convert_record_NoDup (B : rdf_storage.Builtins) (g g' : rdf_storage.Graph)
    (record : gmap string value) :
  NoDup g → rdf_storage.convert_record B g record = Return g' → NoDup g'.
Proof.
  intros Hg. unfold rdf_storage.convert_record.
  destruct (negb (truthy (get record "id" VNone))); [by intros [= <-] |].
  destruct (bool_decide (get record "priority_score" VNone ≠ VNone)).
  - destruct (rdf_storage.round1 B (get record "priority_score" VNone)) as [rounded | e];
      simpl; [| done].
    intros [= <-]. graph_NoDup.
  - intros [= <-]. graph_NoDup.
Qed.

Lemma convert_records_NoDup (B : rdf_storage.Builtins) (final_data : ProcessedData)
    (g g' : rdf_storage.Graph) :
  NoDup g → rdf_storage.convert_records B g final_data = Return g' → NoDup g'.
Proof.
  revert g. induction final_data as [| record rest IH]; intros g Hg; simpl.
  - by intros [= <-].
  - destruct (rdf_storage.convert_record B g record) as [g1 | e] eqn:H1; simpl; [| done].
    apply IH. by eapply convert_record_NoDup.
Qed.

Lemma convert_record_without_id (B : rdf_storage.Builtins) (g : rdf_storage.Graph)
    (record : gmap string value) :
  record !! "id" = None → rdf_storage.convert_record B g record = Return g.
Proof.
  intros Hid. unfold rdf_storage.convert_record, get. by rewrite Hid.
Qed.

(** C5, at the input where the code departs from it.  The record has the
    field [id], with value 0, and [convert_to_rdf] emits nothing for it, the
    triple that types the product included: the loop skips every record whose
    [id] is false in Python's sense, not only the records without [id]. *)
Theorem convert_drops_record_with_id_zero (B : rdf_storage.Builtins) (S : rdf_storage.Store) :
  sample.zeroth !! "id" = Some (VInt 0) ∧
  rdf_storage.convert_to_rdf B S [sample.zeroth] = Return [].
Proof.
  split; [reflexivity |].
  unfold rdf_storage.convert_to_rdf.
  change (rdf_storage.convert_records B [] [sample.zeroth]) with (@Return rdf_storage.Graph []).
  simpl. f_equal. apply Permutation_nil_r. apply rdf_storage.triples_perm.
Qed.

(** The same record through the stages: it is ingested, passes [validate],
    is classified and scored, and leaves nothing in the graph. *)
Example record_with_id_zero_is_lost :
  flow.ingest_and_validate sample.zero_id_csv "rows.csv" 0 = Return [sample.zeroth] ∧
  (do raw <- flow.ingest_and_validate sample.zero_id_csv "rows.csv" 0;
   do classified <- flow.run_llm_classification raw;
   do analyzed <- (flow.run_dask_analysis object_dtype classified sample.zero_then_half).1;
   rdf_storage.convert_to_rdf sample.builtins sample.insertion_order analyzed)
  = Return [].
Proof. vm_compute. split; reflexivity. Qed.

(** C7.  Two calls of [convert_to_rdf] on one batch, whatever order the graph
    stores hand their triples out in, either raise the same exception or
    return the same set of triples, each triple once. *)
Theorem convert_to_rdf_deterministic (B : rdf_storage.Builtins)
    (S1 S2 : rdf_storage.Store) (final_data : ProcessedData) :
  match rdf_storage.convert_to_rdf B S1 final_data,
        rdf_storage.convert_to_rdf B S2 final_data with
  | Return triples1, Return triples2 =>
      triples1 ≡ₚ triples2 ∧ NoDup triples1 ∧ NoDup triples2 ∧
      ∀ t, t ∈ triples1 ↔ t ∈ triples2
  | Raise e1, Raise e2 => e1 = e2
  | _, _ => False
  end.
Proof.
  unfold rdf_storage.convert_to_rdf.
  destruct (rdf_storage.convert_records B [] final_data) as [g | e] eqn:Hg; simpl; [| done].
  assert (NoDup g) as Hnd by (eapply convert_records_NoDup; [apply NoDup_nil_2 | exact Hg]).
  assert (rdf_storage.triples S1 g ≡ₚ rdf_storage.triples S2 g) as Hperm
    by (by rewrite !rdf_storage.triples_perm).
  split; [exact Hperm |]. split; [| split].
  - by rewrite rdf_storage.triples_perm.
  - by rewrite rdf_storage.triples_perm.
  - intros t. by rewrite Hperm.
Qed.

(** * Further properties of the code *)

(** ** The graph as the union of what each record adds *)

Lemma convert_record_foldl (B : rdf_storage.Builtins) (g : rdf_storage.Graph)
    (record : gmap string value) :
  rdf_storage.convert_record B g record
  = do ts <- record_triples B record; Return (foldl rdf_storage.add g ts).
Proof.
  unfold rdf_storage.convert_record, record_triples, core_triples, description_triples,
    availability_triples, insight_triples, velocity_triples, rating_triples,
    product_uri, review_uri, rating_uri.
  destruct (negb (truthy (get record "id" VNone))); [done |].
  destruct (contains record "raw_text");
  destruct (contains record "in_stock");
  destruct (truthy (get record "in_stock" VNone));
  destruct (truthy (get record "llm_classification" VNone));
  destruct (bool_decide (get record "inventory_velocity" VNone ≠ VNone));
  destruct (bool_decide (get record "priority_score" VNone ≠ VNone));
  try destruct (rdf_storage.round1 B (get record "priority_score" VNone));
  cbv zeta; cbn [foldl app Py.bind]; reflexivity.
Qed.

Lemma elem_of_add (g : rdf_storage.Graph) (t t' : rdf_storage.triple) :
  t ∈ rdf_storage.add g t' ↔ t ∈ g ∨ t = t'.
Proof.
  unfold rdf_storage.add. case_bool_decide as Hin.
  - split; [by left | intros [? | ->]; done].
  - rewrite elem_of_app, list_elem_of_singleton. done.
Qed.

Lemma elem_of_foldl_add (ts : list rdf_storage.triple) (g : rdf_storage.Graph)
    (t : rdf_storage.triple) :
  t ∈ foldl rdf_storage.add g ts ↔ t ∈ g ∨ t ∈ ts.
Proof.
  revert g. induction ts as [| t' ts IH]; intros g; simpl.
  - split; [by left | intros [? | H]; [done | by apply elem_of_nil in H]].
  - rewrite IH, elem_of_add, elem_of_cons. tauto.
Qed.

Lemma length_add (g : rdf_storage.Graph) (t : rdf_storage.triple) :
  (length (rdf_storage.add g t) ≤ S (length g))%nat.
Proof.
  unfold rdf_storage.add. case_bool_decide; [lia |].
  rewrite length_app. simpl. lia.
Qed.

Lemma length_foldl_add (ts : list rdf_storage.triple) (g : rdf_storage.Graph) :
  (length (foldl rdf_storage.add g ts) ≤ length g + length ts)%nat.
Proof.
  revert g. induction ts as [| t ts IH]; intros g; simpl; [lia |].
  specialize (IH (rdf_storage.add g t)). pose proof (length_add g t). lia.
Qed.

Lemma foldl_add_NoDup (ts : list rdf_storage.triple) (g : rdf_storage.Graph) :
  NoDup g → NoDup (foldl rdf_storage.add g ts).
Proof.
  revert g. induction ts as [| t ts IH]; intros g Hg; simpl; [done |].
  apply IH. unfold rdf_storage.add. case_bool_decide as Hin; [done |].
  apply NoDup_app. split; [done |]. split; [| apply NoDup_singleton].
  intros x Hx Hx'. apply list_elem_of_singleton in Hx' as ->. done.
Qed.

Lemma record_triples_length (B : rdf_storage.Builtins) (record : gmap string value)
    (ts : list rdf_storage.triple) :
  record_triples B record = Return ts → (length ts ≤ 12)%nat.
Proof.
  unfold record_triples, core_triples, description_triples,
    availability_triples, insight_triples, velocity_triples, rating_triples.
  destruct (negb (truthy (get record "id" VNone))); [intros [= <-]; simpl; lia |].
  destruct (contains record "raw_text");
  destruct (contains record "in_stock");
  destruct (truthy (get record "in_stock" VNone));
  destruct (truthy (get record "llm_classification" VNone));
  destruct (bool_decide (get record "inventory_velocity" VNone ≠ VNone));
  destruct (bool_decide (get record "priority_score" VNone ≠ VNone));
  try destruct (rdf_storage.round1 B (get record "priority_score" VNone));
  cbv zeta; cbn [app Py.bind]; intros [= <-]; simpl; lia.
Qed.

Lemma get_is_str (record : gmap string value) (k s : string) :
  get record k VNone = VStr s ↔ record !! k = Some (VStr s).
Proof. unfold get. destruct (record !! k); split; congruence. Qed.

Lemma record_triples_Raise (B : rdf_storage.Builtins) (record : gmap string value) (e : exn) :
  record_triples B record = Raise e ↔
  e = TypeError ∧ truthy (get record "id" VNone) = true ∧
  ∃ s, record !! "priority_score" = Some (VStr s).
Proof.
  assert ((∃ s, record !! "priority_score" = Some (VStr s)) ↔
          ∃ s, get record "priority_score" VNone = VStr s) as ->.
  { split; intros [s Hs]; exists s; by apply get_is_str. }
  unfold record_triples.
  destruct (truthy (get record "id" VNone)); simpl;
    [| split; [done | by intros (_ & ? & _)]].
  destruct (get record "priority_score" VNone) as [| b | n | x | s];
    simpl; try (split; [done | by intros (_ & _ & ? & ?)]).
  split.
  - intros [= <-]. split; [done |]. split; [done |]. by exists s.
  - by intros (-> & _ & _).
Qed.

Lemma convert_records_Return (B : rdf_storage.Builtins) (final_data : ProcessedData)
    (g g' : rdf_storage.Graph) :
  rdf_storage.convert_records B g final_data = Return g' →
  ∀ t, t ∈ g' ↔
       t ∈ g ∨ ∃ record ts, record ∈ final_data ∧
                            record_triples B record = Return ts ∧ t ∈ ts.
Proof.
  revert g. induction final_data as [| record rest IH]; intros g; simpl.
  - intros [= <-] t. split; [by left |].
    intros [? | (r & ts & Hin & _)]; [done | by apply elem_of_nil in Hin].
  - rewrite convert_record_foldl.
    destruct (record_triples B record) as [ts0 | e] eqn:H0; simpl; [| done].
    intros Hrest t. rewrite (IH _ Hrest t), elem_of_foldl_add. split.
    + intros [[Hg | H1] | (r & ts & Hin & Hr & Ht)].
      * by left.
      * right. exists record, ts0. split; [by left | done].
      * right. exists r, ts. split; [by right | done].
    + intros [Hg | (r & ts & Hin & Hr & Ht)]; [by left; left |].
      apply elem_of_cons in Hin as [-> | Hin].
      * left. right. congruence.
      * right. by exists r, ts.
Qed.

Lemma convert_records_Raise (B : rdf_storage.Builtins) (final_data : ProcessedData)
    (g : rdf_storage.Graph) :
  (∃ e, rdf_storage.convert_records B g final_data = Raise e) ↔
  ∃ record e, record ∈ final_data ∧ record_triples B record = Raise e.
Proof.
  revert g. induction final_data as [| record rest IH]; intros g; simpl.
  - split; [by intros [? ?] |]. intros (r & e & Hin & _). by apply elem_of_nil in Hin.
  - rewrite convert_record_foldl.
    destruct (record_triples B record) as [ts0 | e0] eqn:H0; simpl.
    + rewrite IH. split.
      * intros (r & e & Hin & Hr). exists r, e. split; [by right | done].
      * intros (r & e & Hin & Hr). apply elem_of_cons in Hin as [-> | Hin]; [congruence |].
        by exists r, e.
    + split; [| by exists e0]. intros _. exists record, e0. split; [by left | done].
Qed.

Lemma convert_records_only_TypeError (B : rdf_storage.Builtins) (final_data : ProcessedData)
    (g : rdf_storage.Graph) (e : exn) :
  rdf_storage.convert_records B g final_data = Raise e → e = TypeError.
Proof.
  revert g. induction final_data as [| record rest IH]; intros g; simpl; [done |].
  rewrite convert_record_foldl.
  destruct (record_triples B record) as [ts0 | e0] eqn:H0; simpl.
  - apply IH.
  - intros [= <-]. by apply record_triples_Raise in H0 as (-> & _).
Qed.

Lemma convert_records_length (B : rdf_storage.Builtins) (final_data : ProcessedData)
    (g g' : rdf_storage.Graph) :
  rdf_storage.convert_records B g final_data = Return g' →
  (length g' ≤ length g + 12 * length final_data)%nat.
Proof.
  revert g. induction final_data as [| record rest IH]; intros g; simpl.
  - intros [= <-]. lia.
  - rewrite convert_record_foldl.
    destruct (record_triples B record) as [ts0 | e] eqn:H0; simpl; [| done].
    intros Hrest. specialize (IH _ Hrest).
    pose proof (length_foldl_add ts0 g). pose proof (record_triples_length _ _ _ H0). lia.
Qed.

Lemma record_triples_Return_inv (B : rdf_storage.Builtins) (record : gmap string value)
    (ts : list rdf_storage.triple) :
  record_triples B record = Return ts →
  (truthy (get record "id" VNone) = false ∧ ts = []) ∨
  (truthy (get record "id" VNone) = true ∧
   ∃ rating,
     ts = (core_triples B record ++ description_triples B record ++
           availability_triples B record ++ insight_triples B record ++
           velocity_triples B record ++ rating)%list ∧
     (rating = [] ∨ ∃ rounded, rating = rating_triples B record rounded)).
Proof.
  unfold record_triples.
  destruct (truthy (get record "id" VNone)); simpl; [| intros [= <-]; by left].
  intros H. right. split; [done |].
  destruct (bool_decide (get record "priority_score" VNone ≠ VNone)).
  - destruct (rdf_storage.round1 B (get record "priority_score" VNone)) as [rounded |];
      simpl in H; [| done].
    injection H as <-. exists (rating_triples B record rounded).
    split; [by rewrite <- !(assoc_L (++)) | right; by exists rounded].
  - injection H as <-. exists []. split; [by rewrite !app_nil_r | by left].
Qed.

(** Membership of a triple in the segments, by cases on the rule. *)
Ltac triple_cases H :=
  rewrite ?elem_of_cons, ?elem_of_nil in H;
  repeat (destruct H as [H | H]); try discriminate H; try (by destruct H).

Ltac in_segment H :=
  unfold core_triples, description_triples, availability_triples, insight_triples,
    velocity_triples, rating_triples in H;
  repeat match type of H with
         | context [if ?c then _ else _] => destruct c
         end;
  triple_cases H.

Lemma record_triples_product (B : rdf_storage.Builtins) (record : gmap string value)
    (ts : list rdf_storage.triple) (s : rdf_storage.term) :
  record_triples B record = Return ts →
  (s, rdf_storage.RDF_type, rdf_storage.SCHEMA "Product") ∈ ts ↔
  truthy (get record "id" VNone) = true ∧ s = product_uri B record.
Proof.
  intros Hts.
  destruct (record_triples_Return_inv _ _ _ Hts)
    as [[Hid ->] | (Hid & rating & -> & Hrating)].
  - split; [intros H; by apply elem_of_nil in H | intros [? _]; congruence].
  - split.
    + intros H. split; [done |].
      rewrite !elem_of_app in H.
      destruct H as [H | [H | [H | [H | [H | H]]]]]; try (in_segment H; fail).
      * in_segment H. by injection H.
      * destruct Hrating as [-> | [rounded ->]]; in_segment H.
    + intros [_ ->]. apply elem_of_app. left. by left.
Qed.

Lemma record_triples_links (B : rdf_storage.Builtins) (record : gmap string value)
    (ts : list rdf_storage.triple) (a b : rdf_storage.term) :
  record_triples B record = Return ts →
  ((a, rdf_storage.SCHEMA "itemReviewed", b) ∈ ts →
   (a, rdf_storage.RDF_type, rdf_storage.SCHEMA "Review") ∈ ts ∧
   (b, rdf_storage.RDF_type, rdf_storage.SCHEMA "Product") ∈ ts) ∧
  ((a, rdf_storage.SCHEMA "aggregateRating", b) ∈ ts →
   (a, rdf_storage.RDF_type, rdf_storage.SCHEMA "Product") ∈ ts ∧
   (b, rdf_storage.RDF_type, rdf_storage.SCHEMA "Rating") ∈ ts).
Proof.
  intros Hts.
  destruct (record_triples_Return_inv _ _ _ Hts)
    as [[Hid ->] | (Hid & rating & -> & Hrating)].
  - split; intros H; by apply elem_of_nil in H.
  - assert (∀ rest, (product_uri B record, rdf_storage.RDF_type, rdf_storage.SCHEMA "Product")
                    ∈ (core_triples B record ++ rest)%list) as Hcore
      by (intros rest; apply elem_of_app; left; by left).
    split; intros H; rewrite !elem_of_app in H;
      destruct H as [H | [H | [H | [H | [H | H]]]]]; try (in_segment H; fail).
    + unfold insight_triples in *.
      destruct (truthy (get record "llm_classification" VNone)); [| by apply elem_of_nil in H].
      triple_cases H. injection H as -> ->. split; [| apply Hcore].
      rewrite !elem_of_app. right; right; right; left.
      apply elem_of_cons. right. by left.
    + destruct Hrating as [-> | [rounded ->]]; in_segment H.
    + destruct Hrating as [-> | [rounded ->]]; [by apply elem_of_nil in H |].
      unfold rating_triples in *. triple_cases H. injection H as -> ->.
      split; [apply Hcore |].
      rewrite !elem_of_app. do 5 right. by left.
Qed.

Lemma convert_to_rdf_Return (B : rdf_storage.Builtins) (S : rdf_storage.Store)
    (final_data : ProcessedData) (ts : list rdf_storage.triple) :
  rdf_storage.convert_to_rdf B S final_data = Return ts →
  NoDup ts ∧
  ∀ t, t ∈ ts ↔ ∃ record ts', record ∈ final_data ∧
                               record_triples B record = Return ts' ∧ t ∈ ts'.
Proof.
  unfold rdf_storage.convert_to_rdf.
  destruct (rdf_storage.convert_records B [] final_data) as [g | e] eqn:Hg; simpl; [| done].
  intros [= <-]. split.
  - rewrite rdf_storage.triples_perm.
    eapply convert_records_NoDup; [apply NoDup_nil_2 | exact Hg].
  - intros t. rewrite rdf_storage.triples_perm, (convert_records_Return _ _ _ _ Hg t).
    split; [intros [H | H]; [by apply elem_of_nil in H | done] | by right].
Qed.

Lemma convert_to_rdf_Raise (B : rdf_storage.Builtins) (S : rdf_storage.Store)
    (final_data : ProcessedData) (e : exn) :
  rdf_storage.convert_to_rdf B S final_data = Raise e ↔
  e = TypeError ∧
  ∃ record s, record ∈ final_data ∧ truthy (get record "id" VNone) = true ∧
              record !! "priority_score" = Some (VStr s).
Proof.
  unfold rdf_storage.convert_to_rdf.
  destruct (rdf_storage.convert_records B [] final_data) as [g | e'] eqn:Hg; simpl.
  - split; [done |]. intros (_ & record & s & Hin & Hid & Hp).
    assert (∃ e0, rdf_storage.convert_records B [] final_data = Raise e0) as [e0 He0].
    { apply convert_records_Raise. exists record, TypeError. split; [done |].
      apply record_triples_Raise. split; [done |]. split; [done |]. by exists s. }
    congruence.
  - pose proof (convert_records_only_TypeError _ _ _ _ Hg) as ->.
    split.
    + intros [= <-]. split; [done |].
      destruct (proj1 (convert_records_Raise B final_data []) (ex_intro _ _ Hg))
        as (record & e0 & Hin & Hr).
      apply record_triples_Raise in Hr as (_ & Hid & s & Hs). by exists record, s.
    + by intros (-> & _).
Qed.

(** X1.  [convert_to_rdf] raises exactly when some record with a true [id]
    holds a [str] under [priority_score], and then it raises [TypeError]. *)
Theorem convert_to_rdf_raises_iff (B : rdf_storage.Builtins) (S : rdf_storage.Store)
    (final_data : ProcessedData) (e : exn) :
  rdf_storage.convert_to_rdf B S final_data = Raise e ↔
  e = TypeError ∧
  ∃ record s, record ∈ final_data ∧ truthy (get record "id" VNone) = true ∧
              record !! "priority_score" = Some (VStr s).
Proof.
  unfold rdf_storage.convert_to_rdf.
  destruct (rdf_storage.convert_records B [] final_data) as [g | e'] eqn:Hg; simpl.
  - split; [done |]. intros (_ & record & s & Hin & Hid & Hp).
    assert (∃ e0, rdf_storage.convert_records B [] final_data = Raise e0) as [e0 He0].
    { apply convert_records_Raise. exists record, TypeError. split; [done |].
      apply record_triples_Raise. split; [done |]. split; [done |]. by exists s. }
    congruence.
  - pose proof (convert_records_only_TypeError _ _ _ _ Hg) as ->.
    split.
    + intros [= <-]. split; [done |].
      destruct (proj1 (convert_records_Raise B final_data []) (ex_intro _ _ Hg))
        as (record & e0 & Hin & Hr).
      apply record_triples_Raise in Hr as (_ & Hid & s & Hs). by exists record, s.
    + by intros (-> & _).
Qed.

Lemma convert_to_rdf_size_bound_aux (B : rdf_storage.Builtins) (S : rdf_storage.Store)
    (final_data : ProcessedData) (ts : list rdf_storage.triple) :
  rdf_storage.convert_to_rdf B S final_data = Return ts →
  (length ts ≤ 12 * length final_data)%nat.
Proof.
  unfold rdf_storage.convert_to_rdf.
  destruct (rdf_storage.convert_records B [] final_data) as [g | e] eqn:Hg; simpl; [| done].
  intros [= <-]. rewrite rdf_storage.triples_perm.
  apply convert_records_length in Hg. simpl in Hg. lia.
Qed.

(** X2.  The graph of a batch holds at most twelve triples per record. *)
Theorem convert_to_rdf_size_bound (B : rdf_storage.Builtins) (S : rdf_storage.Store)
    (final_data : ProcessedData) (ts : list rdf_storage.triple) :
  rdf_storage.convert_to_rdf B S final_data = Return ts →
  (length ts ≤ 12 * length final_data)%nat.
Proof.
  unfold rdf_storage.convert_to_rdf.
  destruct (rdf_storage.convert_records B [] final_data) as [g | e] eqn:Hg; simpl; [| done].
  intros [= <-]. rewrite rdf_storage.triples_perm.
  apply convert_records_length in Hg. simpl in Hg. lia.
Qed.

Lemma convert_to_rdf_size_bound_witness :
  rdf_storage.convert_to_rdf sample.builtins sample.insertion_order
    [sample.review; sample.zeroth] = Return sample.review_graph ∧
  (length sample.review_graph ≤ 12 * length [sample.review; sample.zeroth])%nat.
Proof.
  split; [reflexivity |].
  apply (convert_to_rdf_size_bound sample.builtins sample.insertion_order
           [sample.review; sample.zeroth] sample.review_graph).
  reflexivity.
Defined.

(** X3.  The graph depends on the batch as a set of records only: two batches
    with the same records, in any order and with any repetitions, give the
    same triples, or both raise. *)
Theorem convert_to_rdf_depends_on_record_set (B : rdf_storage.Builtins)
    (S1 S2 : rdf_storage.Store) (data1 data2 : ProcessedData) :
  (∀ record, record ∈ data1 ↔ record ∈ data2) →
  match rdf_storage.convert_to_rdf B S1 data1, rdf_storage.convert_to_rdf B S2 data2 with
  | Return ts1, Return ts2 => ts1 ≡ₚ ts2
  | Raise e1, Raise e2 => e1 = e2
  | _, _ => False
  end.
Proof.
  intros Hsame.
  destruct (rdf_storage.convert_to_rdf B S1 data1) as [ts1 | e1] eqn:H1;
  destruct (rdf_storage.convert_to_rdf B S2 data2) as [ts2 | e2] eqn:H2.
  - destruct (convert_to_rdf_Return _ _ _ _ H1) as [Hnd1 Hel1].
    destruct (convert_to_rdf_Return _ _ _ _ H2) as [Hnd2 Hel2].
    apply NoDup_Permutation; [done | done |].
    intros t. rewrite Hel1, Hel2.
    split; intros (record & ts' & Hin & Hr & Ht); exists record, ts';
      (split; [by apply Hsame | done]).
  - apply convert_to_rdf_Raise in H2 as (_ & record & s & Hin & Hid & Hp).
    assert (rdf_storage.convert_to_rdf B S1 data1 = Raise TypeError) as Hc; [| congruence].
    apply convert_to_rdf_Raise. split; [done |]. exists record, s.
    split; [by apply Hsame | done].
  - apply convert_to_rdf_Raise in H1 as (_ & record & s & Hin & Hid & Hp).
    assert (rdf_storage.convert_to_rdf B S2 data2 = Raise TypeError) as Hc; [| congruence].
    apply convert_to_rdf_Raise. split; [done |]. exists record, s.
    split; [by apply Hsame | done].
  - apply convert_to_rdf_Raise in H1 as [-> _].
    by apply convert_to_rdf_Raise in H2 as [-> _].
Qed.

Lemma convert_to_rdf_depends_on_record_set_witness :
  (∀ record, record ∈ [sample.review; sample.zeroth]
             ↔ record ∈ [sample.zeroth; sample.review; sample.review]) ∧
  match rdf_storage.convert_to_rdf sample.builtins sample.insertion_order
          [sample.review; sample.zeroth],
        rdf_storage.convert_to_rdf sample.builtins sample.insertion_order
          [sample.zeroth; sample.review; sample.review] with
  | Return ts1, Return ts2 => ts1 ≡ₚ ts2
  | Raise e1, Raise e2 => e1 = e2
  | _, _ => False
  end.
Proof.
  assert (∀ record, record ∈ [sample.review; sample.zeroth]
                    ↔ record ∈ [sample.zeroth; sample.review; sample.review]) as H.
  { intros record. rewrite !elem_of_cons, !elem_of_nil. tauto. }
  split; [exact H |].
  exact (convert_to_rdf_depends_on_record_set sample.builtins sample.insertion_order
           sample.insertion_order _ _ H).
Defined.

(** X4.  In the graph of a batch, the nodes typed [schema:Product] are the
    [Product_{id}] of the records whose [id] is true in Python's sense
    (present and not [None], 0, [False] or empty). *)
Theorem product_nodes_are_records_with_true_id (B : rdf_storage.Builtins)
    (S : rdf_storage.Store) (final_data : ProcessedData) (ts : list rdf_storage.triple) :
  rdf_storage.convert_to_rdf B S final_data = Return ts →
  ∀ node,
    (node, rdf_storage.RDF_type, rdf_storage.SCHEMA "Product") ∈ ts ↔
    ∃ record, record ∈ final_data ∧ truthy (get record "id" VNone) = true ∧
              node = rdf_storage.ANALYSIS_NS
                       ("Product_" ++ rdf_storage.str B (get record "id" VNone)).
Proof.
  intros Hts node. destruct (convert_to_rdf_Return _ _ _ _ Hts) as [_ Hel].
  rewrite Hel. split.
  - intros (record & ts' & Hin & Hr & Ht). exists record. split; [done |].
    by apply (record_triples_product _ _ _ _ Hr).
  - intros (record & Hin & Hid & ->).
    destruct (record_triples B record) as [ts' | e] eqn:Hr.
    + exists record, ts'. split; [done |]. split; [done |].
      by apply (record_triples_product _ _ _ _ Hr).
    + assert (rdf_storage.convert_to_rdf B S final_data = Raise TypeError) as Hc; [| congruence].
      apply record_triples_Raise in Hr as (_ & _ & s & Hs).
      apply convert_to_rdf_Raise. split; [done |]. by exists record, s.
Qed.

Lemma product_nodes_are_records_with_true_id_witness :
  rdf_storage.convert_to_rdf sample.builtins sample.insertion_order
    [sample.review; sample.zeroth] = Return sample.review_graph ∧
  ∀ node,
    (node, rdf_storage.RDF_type, rdf_storage.SCHEMA "Product") ∈ sample.review_graph ↔
    ∃ record, record ∈ [sample.review; sample.zeroth] ∧
              truthy (get record "id" VNone) = true ∧
              node = rdf_storage.ANALYSIS_NS
                       ("Product_" ++ rdf_storage.str sample.builtins (get record "id" VNone)).
Proof.
  split; [reflexivity |].
  apply (product_nodes_are_records_with_true_id sample.builtins sample.insertion_order
           [sample.review; sample.zeroth] sample.review_graph).
  reflexivity.
Defined.

(** X5.  The links of the graph resolve inside the graph: a review is typed
    and points at a typed product, and a product's rating is typed. *)
Theorem graph_links_resolve (B : rdf_storage.Builtins) (S : rdf_storage.Store)
    (final_data : ProcessedData) (ts : list rdf_storage.triple) :
  rdf_storage.convert_to_rdf B S final_data = Return ts →
  ∀ a b,
    ((a, rdf_storage.SCHEMA "itemReviewed", b) ∈ ts →
     (a, rdf_storage.RDF_type, rdf_storage.SCHEMA "Review") ∈ ts ∧
     (b, rdf_storage.RDF_type, rdf_storage.SCHEMA "Product") ∈ ts) ∧
    ((a, rdf_storage.SCHEMA "aggregateRating", b) ∈ ts →
     (a, rdf_storage.RDF_type, rdf_storage.SCHEMA "Product") ∈ ts ∧
     (b, rdf_storage.RDF_type, rdf_storage.SCHEMA "Rating") ∈ ts).
Proof.
  intros Hts a b. destruct (convert_to_rdf_Return _ _ _ _ Hts) as [_ Hel].
  split; intros H; apply Hel in H as (record & ts' & Hin & Hr & Ht);
    pose proof (record_triples_links B record ts' a b Hr) as [Hreview Hrating].
  - destruct (Hreview Ht). split; apply Hel; by exists record, ts'.
  - destruct (Hrating Ht). split; apply Hel; by exists record, ts'.
Qed.

Lemma graph_links_resolve_witness :
  rdf_storage.convert_to_rdf sample.builtins sample.insertion_order
    [sample.classified_review] = Return sample.classified_graph ∧
  ∀ a b,
    ((a, rdf_storage.SCHEMA "itemReviewed", b) ∈ sample.classified_graph →
     (a, rdf_storage.RDF_type, rdf_storage.SCHEMA "Review") ∈ sample.classified_graph ∧
     (b, rdf_storage.RDF_type, rdf_storage.SCHEMA "Product") ∈ sample.classified_graph) ∧
    ((a, rdf_storage.SCHEMA "aggregateRating", b) ∈ sample.classified_graph →
     (a, rdf_storage.RDF_type, rdf_storage.SCHEMA "Product") ∈ sample.classified_graph ∧
     (b, rdf_storage.RDF_type, rdf_storage.SCHEMA "Rating") ∈ sample.classified_graph).
Proof.
  split; [reflexivity |].
  apply (graph_links_resolve sample.builtins sample.insertion_order
           [sample.classified_review] sample.classified_graph).
  reflexivity.
Defined.

(** ** The classification stage, record by record *)

Lemma merged_record_classified (r : gmap string value) (s : string) :
  <["llm_classification" := VStr (label_of_length (String.length s))]> (delete "raw_text" r)
    ∪ {["raw_text" := VStr s]}
  = classified r s.
Proof.
  unfold classified.
  rewrite <- insert_union_singleton_r
    by (rewrite lookup_insert_ne by done; apply lookup_delete_eq).
  rewrite insert_insert_ne by done. by rewrite insert_delete_eq.
Qed.

Lemma classify_document_Return (r : gmap string value) :
  flow.classify_document
    {| flow.content := get r "raw_text" (VStr ""); flow.meta := delete "raw_text" r |}
  = match get r "raw_text" (VStr "") with
    | VStr s =>
        Return {| flow.content := VStr s;
                  flow.meta := <["llm_classification" :=
                                   VStr (label_of_length (String.length s))]>
                                 (delete "raw_text" r) |}
    | _ => Raise TypeError
    end.
Proof.
  unfold flow.classify_document. simpl.
  destruct (get r "raw_text" (VStr "")); reflexivity.
Qed.

Lemma run_llm_classification_rows (raw_data : ProcessedData) :
  match flow.run_llm_classification raw_data with
  | Return out =>
      Forall2 (λ r o, ∃ s, get r "raw_text" (VStr "") = VStr s ∧ o = classified r s)
              raw_data out
  | Raise e =>
      e = TypeError ∧
      ∃ r, r ∈ raw_data ∧ ∀ s, get r "raw_text" (VStr "") ≠ VStr s
  end.
Proof.
  unfold flow.run_llm_classification.
  case_bool_decide as Hnil.
  { apply fmap_nil_inv in Hnil as ->. constructor. }
  clear Hnil. unfold flow.MockHaystackPipeline_run, flow.MockHaystackClassifier_run.
  induction raw_data as [| r rest IH]; simpl; [constructor |].
  rewrite classify_document_Return.
  destruct (get r "raw_text" (VStr "")) as [| b | n | x | s] eqn:Hget; simpl;
    try (split; [done |]; exists r; split; [by left | intros s; congruence]).
  destruct (for_each flow.classify_document _) as [docs | e]; simpl in *.
  - constructor; [| exact IH].
    exists s. split; [done |]. apply merged_record_classified.
  - destruct IH as (-> & r' & Hin & Hr'). split; [done |].
    exists r'. split; [by right | done].
Qed.

Lemma classified_lookup (r : gmap string value) (s k : string) :
  classified r s !! k =
    if decide (k = "llm_classification") then Some (VStr (label_of_length (String.length s)))
    else if decide (k = "raw_text") then Some (VStr s)
    else r !! k.
Proof.
  unfold classified. repeat case_decide; subst.
  - by rewrite lookup_insert_eq.
  - rewrite lookup_insert_ne by done. by rewrite lookup_insert_eq.
  - by rewrite !lookup_insert_ne.
Qed.

(** X6.  The classification stage returns one record per input record, in the
    same order; each keeps every field but [raw_text] and [llm_classification]
    as it was, holds under [raw_text] the text that was classified (the empty
    string for a record that had none), and carries a label. *)
Theorem classification_keeps_fields (raw_data out : ProcessedData) :
  flow.run_llm_classification raw_data = Return out →
  length out = length raw_data ∧
  ∀ i r o, raw_data !! i = Some r → out !! i = Some o →
    (∀ k, k ≠ "raw_text" → k ≠ "llm_classification" → o !! k = r !! k) ∧
    o !! "raw_text" = Some (get r "raw_text" (VStr "")) ∧
    (o !! "llm_classification" = Some (VStr "LongReport") ∨
     o !! "llm_classification" = Some (VStr "DetailedSpec") ∨
     o !! "llm_classification" = Some (VStr "ProductReview")).
Proof.
  intros Hrun. pose proof (run_llm_classification_rows raw_data) as Hrows.
  rewrite Hrun in Hrows. split; [symmetry; by eapply Forall2_length |].
  intros i r o Hr Ho.
  destruct (Forall2_lookup_lr _ _ _ _ _ _ Hrows Hr Ho) as (s & Hs & ->).
  split; [| split].
  - intros k Hk1 Hk2. rewrite classified_lookup. by repeat case_decide.
  - rewrite classified_lookup, Hs. by repeat case_decide.
  - rewrite classified_lookup. simpl. unfold label_of_length.
    destruct (100 <? String.length s)%nat; [by left |].
    destruct (40 <? String.length s)%nat; [right; by left | right; by right].
Qed.

Lemma classification_keeps_fields_witness :
  flow.run_llm_classification [sample.review; sample.untexted]
    = Return sample.classified_pair ∧
  length sample.classified_pair = length [sample.review; sample.untexted] ∧
  ∀ i r o, [sample.review; sample.untexted] !! i = Some r →
           sample.classified_pair !! i = Some o →
    (∀ k, k ≠ "raw_text" → k ≠ "llm_classification" → o !! k = r !! k) ∧
    o !! "raw_text" = Some (get r "raw_text" (VStr "")) ∧
    (o !! "llm_classification" = Some (VStr "LongReport") ∨
     o !! "llm_classification" = Some (VStr "DetailedSpec") ∨
     o !! "llm_classification" = Some (VStr "ProductReview")).
Proof.
  split; [reflexivity |].
  apply (classification_keeps_fields [sample.review; sample.untexted] sample.classified_pair).
  reflexivity.
Defined.

(** X7.  The label depends on the length of the text alone: up to 40
    characters [ProductReview], from 41 to 100 [DetailedSpec], above 100
    [LongReport]. *)
Theorem classification_label_thresholds (raw_data out : ProcessedData)
    (i : nat) (r o : gmap string value) (s : string) :
  flow.run_llm_classification raw_data = Return out →
  raw_data !! i = Some r → out !! i = Some o →
  r !! "raw_text" = Some (VStr s) →
  ((String.length s ≤ 40)%nat → o !! "llm_classification" = Some (VStr "ProductReview")) ∧
  ((40 < String.length s ≤ 100)%nat → o !! "llm_classification" = Some (VStr "DetailedSpec")) ∧
  ((100 < String.length s)%nat → o !! "llm_classification" = Some (VStr "LongReport")).
Proof.
  intros Hrun Hr Ho Htext. pose proof (run_llm_classification_rows raw_data) as Hrows.
  rewrite Hrun in Hrows.
  destruct (Forall2_lookup_lr _ _ _ _ _ _ Hrows Hr Ho) as (s' & Hs & ->).
  unfold get in Hs. rewrite Htext in Hs. injection Hs as <-.
  rewrite classified_lookup. simpl. unfold label_of_length.
  destruct (Nat.ltb_spec 100 (String.length s)); destruct (Nat.ltb_spec 40 (String.length s));
    repeat split; intros; (done || lia).
Qed.

Lemma classification_label_thresholds_witness :
  flow.run_llm_classification [sample.review; sample.untexted]
    = Return sample.classified_pair ∧
  ((String.length "Great camera." ≤ 40)%nat →
   sample.classified_review0 !! "llm_classification" = Some (VStr "ProductReview")) ∧
  ((40 < String.length "Great camera." ≤ 100)%nat →
   sample.classified_review0 !! "llm_classification" = Some (VStr "DetailedSpec")) ∧
  ((100 < String.length "Great camera.")%nat →
   sample.classified_review0 !! "llm_classification" = Some (VStr "LongReport")).
Proof.
  split; [reflexivity |].
  apply (classification_label_thresholds [sample.review; sample.untexted]
           sample.classified_pair 0 sample.review sample.classified_review0 "Great camera.");
    reflexivity.
Defined.

(** X8.  The classification stage raises exactly when some record holds
    something other than a [str] under [raw_text] (a number, a boolean,
    [None]), and then it raises [TypeError]; [validate] does not exclude such
    records. *)
Theorem classification_raises_iff (raw_data : ProcessedData) (e : exn) :
  flow.run_llm_classification raw_data = Raise e ↔
  e = TypeError ∧
  ∃ r v, r ∈ raw_data ∧ r !! "raw_text" = Some v ∧ ∀ s, v ≠ VStr s.
Proof.
  pose proof (run_llm_classification_rows raw_data) as Hrows.
  destruct (flow.run_llm_classification raw_data) as [out | e'].
  - split; [done |]. intros (_ & r & v & Hin & Hv & Hns).
    apply list_elem_of_lookup in Hin as [i Hi].
    destruct (Forall2_lookup_l _ _ _ _ _ Hrows Hi) as (o & _ & s & Hs & _).
    unfold get in Hs. rewrite Hv in Hs. by destruct (Hns s).
  - destruct Hrows as (-> & r & Hin & Hr). split.
    + intros [= <-]. split; [done |]. unfold get in Hr.
      destruct (r !! "raw_text") as [v |] eqn:Hv; [| by destruct (Hr "")].
      by exists r, v.
    + by intros (-> & _).
Qed.

(** X9.  Classifying a classified batch changes nothing. *)
Theorem classification_idempotent (raw_data out : ProcessedData) :
  flow.run_llm_classification raw_data = Return out →
  flow.run_llm_classification out = Return out.
Proof.
  intros Hrun. pose proof (run_llm_classification_rows raw_data) as Hrows.
  rewrite Hrun in Hrows.
  pose proof (run_llm_classification_rows out) as Hrows2.
  destruct (flow.run_llm_classification out) as [out2 | e].
  - f_equal. apply list_eq_Forall2.
    apply Forall2_flip in Hrows2.
    eapply Forall2_impl; [| by intros ?? ->].
    clear Hrun. revert out2 Hrows2.
    induction Hrows as [| r o raw out (s & Hs & ->) Hrest IH]; intros out2 H2;
      inversion H2 as [| o2 o' out2' out' (s2 & Hs2 & ->) H2']; subst; constructor.
    + unfold get in Hs2. rewrite classified_lookup in Hs2. simpl in Hs2.
      injection Hs2 as <-. unfold classified.
      rewrite (insert_insert_ne _ "llm_classification" "raw_text") by done.
      rewrite insert_insert_eq.
      rewrite (insert_insert_ne _ "raw_text" "llm_classification") by done.
      by rewrite insert_insert_eq.
    + by apply IH.
  - exfalso. destruct Hrows2 as (_ & o & Hin & Ho).
    apply list_elem_of_lookup in Hin as [i Hi].
    destruct (Forall2_lookup_r _ _ _ _ _ Hrows Hi) as (r & _ & s & _ & ->).
    apply (Ho s). unfold get. by rewrite classified_lookup.
Qed.

Lemma classification_idempotent_witness :
  flow.run_llm_classification [sample.review; sample.untexted]
    = Return sample.classified_pair ∧
  flow.run_llm_classification sample.classified_pair = Return sample.classified_pair.
Proof.
  split; [reflexivity |].
  apply (classification_idempotent [sample.review; sample.untexted] sample.classified_pair).
  reflexivity.
Defined.

(** ** Reading a CSV file *)

Lemma row_lookup_well_formed (df : pd.Frame) (i : nat) (key : string) :
  frame_well_formed df → (i < pd.nrows df)%nat →
  is_Some (pd.row df i !! key) ↔ key ∈ dom (pd.columns df).
Proof.
  intros Hwf Hi. unfold pd.row. rewrite lookup_omap, elem_of_dom.
  destruct (pd.columns df !! key) as [col |] eqn:Hcol; simpl.
  - split; [by eexists | intros _].
    apply lookup_lt_is_Some_2. by rewrite (Hwf key col Hcol).
  - split; intros [? ?]; done.
Qed.

Lemma setitem_well_formed (df : pd.Frame) (c : string) (series : list value) :
  frame_well_formed df → length series = pd.nrows df →
  frame_well_formed (pd.setitem df c series).
Proof.
  intros Hwf Hlen key col. unfold pd.setitem. simpl.
  destruct (decide (c = key)) as [-> | Hne].
  - rewrite lookup_insert_eq. by intros [= <-].
  - rewrite lookup_insert_ne by done. apply Hwf.
Qed.

Lemma validate_to_dict_records (df : pd.Frame) :
  frame_well_formed df →
  file_handlers.validate (pd.to_dict_records df) = true ↔
  (0 < pd.nrows df)%nat ∧ "id" ∈ dom (pd.columns df) ∧ "raw_text" ∈ dom (pd.columns df).
Proof.
  intros Hwf. rewrite validate_true_iff, Forall_lookup. split.
  - intros [Hne Hall].
    assert (0 < pd.nrows df)%nat as Hpos.
    { destruct (pd.nrows df) eqn:Hn; [| lia]. destruct Hne.
      unfold pd.to_dict_records. by rewrite Hn. }
    split; [done |].
    specialize (Hall 0%nat (pd.row df 0) (to_dict_records_lookup df 0 Hpos)). simpl in Hall.
    by rewrite <- !(row_lookup_well_formed df 0) by done.
  - intros (Hpos & Hid & Htext). split.
    + intros Hnil. pose proof (length_to_dict_records df) as Hlen.
      rewrite Hnil in Hlen. simpl in Hlen. lia.
    + intros i r Hr.
      assert (i < pd.nrows df)%nat as Hi
        by (rewrite <- length_to_dict_records; by eapply lookup_lt_Some).
      rewrite to_dict_records_lookup in Hr by done. injection Hr as <-.
      by rewrite !row_lookup_well_formed.
Qed.

Lemma get_handler_not_url (W : file_handlers.World) (source_identifier : string) :
  file_handlers.is_url W source_identifier = false →
  file_handlers.get_handler W source_identifier
  = file_handlers.CSVFileHandler source_identifier.
Proof.
  intros Hurl. unfold file_handlers.get_handler. rewrite Hurl.
  by destruct (_ || _).
Qed.

(** X10.  A CSV file without an [id] column gets one: the records come back
    in the order of the rows, the [i]-th of them (from 0) with [id] [i + 1] and
    with every other field as the file has it. *)
Theorem csv_parse_synthetic_ids (W : file_handlers.World) (k : nat) (path : string)
    (df : pd.Frame) :
  file_handlers.read_csv W k path = Return df →
  "id" ∉ dom (pd.columns df) →
  length (file_handlers.CSVFileHandler_parse W k path) = pd.nrows df ∧
  ∀ i, (i < pd.nrows df)%nat →
    ∃ record,
      file_handlers.CSVFileHandler_parse W k path !! i = Some record ∧
      record !! "id" = Some (VInt (Z.of_nat i + 1)) ∧
      ∀ key, key ≠ "id" → record !! key = pd.row df i !! key.
Proof.
  intros Hread Hid. unfold file_handlers.CSVFileHandler_parse. rewrite Hread.
  rewrite bool_decide_true by done.
  rewrite to_dict_records_setitem by (by rewrite length_fmap, length_seq).
  split.
  - rewrite length_zip_with_l_eq; rewrite length_to_dict_records; [done |].
    by rewrite length_fmap, length_seq.
  - intros i Hi. eexists. split; [| split].
    + rewrite lookup_zip_with, to_dict_records_lookup by done. simpl.
      rewrite list_lookup_fmap, lookup_seq_lt by done. reflexivity.
    + rewrite lookup_insert_eq. do 2 f_equal. lia.
    + intros key Hkey. by rewrite lookup_insert_ne.
Qed.

Lemma csv_parse_synthetic_ids_witness :
  file_handlers.read_csv sample.idless_csv 0 "notes.csv" = Return sample.idless_frame ∧
("id" ∉ dom (pd.columns sample.idless_frame)) ∧
  length (file_handlers.CSVFileHandler_parse sample.idless_csv 0 "notes.csv")
    = pd.nrows sample.idless_frame ∧
  ∀ i, (i < pd.nrows sample.idless_frame)%nat →
    ∃ record,
      file_handlers.CSVFileHandler_parse sample.idless_csv 0 "notes.csv" !! i = Some record ∧
      record !! "id" = Some (VInt (Z.of_nat i + 1)) ∧
      ∀ key, key ≠ "id" → record !! key = pd.row sample.idless_frame i !! key.
Proof.
  split; [reflexivity |].
  assert ("id" ∉ dom (pd.columns sample.idless_frame)) as Hid by (vm_compute; set_solver).
  split; [exact Hid |].
  exact (csv_parse_synthetic_ids sample.idless_csv 0 "notes.csv" sample.idless_frame
           eq_refl Hid).
Defined.

Lemma csv_ingestion_cases (W : file_handlers.World) (k : nat)
    (source_identifier : string) (df : pd.Frame) :
  file_handlers.is_url W source_identifier = false →
  file_handlers.read_csv W k source_identifier = Return df →
  frame_well_formed df →
  (flow.ingest_and_validate W source_identifier k
     = Return (file_handlers.CSVFileHandler_parse W k source_identifier) ∧
   (0 < pd.nrows df)%nat ∧ "raw_text" ∈ dom (pd.columns df)) ∨
  (flow.ingest_and_validate W source_identifier k = Raise ingestion_error ∧
   ¬ ((0 < pd.nrows df)%nat ∧ "raw_text" ∈ dom (pd.columns df))).
Proof.
  intros Hurl Hread Hwf. unfold flow.ingest_and_validate.
  rewrite (get_handler_not_url _ _ Hurl). simpl.
  unfold file_handlers.CSVFileHandler_parse. rewrite Hread.
  set (df' := if bool_decide ("id" ∉ dom (pd.columns df))
              then pd.setitem df "id" ((λ i, VInt (Z.of_nat i)) <$> seq 1 (pd.nrows df))
              else df).
  assert (frame_well_formed df' ∧ pd.nrows df' = pd.nrows df ∧
          "id" ∈ dom (pd.columns df') ∧
          ("raw_text" ∈ dom (pd.columns df') ↔ "raw_text" ∈ dom (pd.columns df)))
    as (Hwf' & Hn & Hid & Htext).
  { subst df'. case_bool_decide as Hc.
    - split; [apply setitem_well_formed; [done | by rewrite length_fmap, length_seq] |].
      split; [done |]. simpl. rewrite dom_insert_L, !elem_of_union, elem_of_singleton.
      split; [by left |]. split; [intros [? | ?]; done | by right].
    - split; [done |]. split; [done |]. split; [| done].
      by destruct (decide ("id" ∈ dom (pd.columns df))). }
  pose proof (validate_to_dict_records df' Hwf') as Hval.
  rewrite Hn, Htext in Hval.
  destruct (file_handlers.validate (pd.to_dict_records df')) eqn:Hv.
  - destruct (proj1 Hval eq_refl) as (Hpos & _ & Ht). left.
    rewrite bool_decide_true; [done |].
    intros Hnil. pose proof (length_to_dict_records df') as Hlen.
    rewrite Hnil in Hlen. simpl in Hlen. lia.
  - right. rewrite orb_true_r. split; [done |].
    intros [Hpos Ht]. assert (false = true); [| done]. apply Hval. by rewrite <- Hn in *.
Qed.

(** X11.  For a source that is not a URL and a file that [pd.read_csv] can
    read, ingestion succeeds exactly when the file has at least one row and a
    [raw_text] column; the [id] column never decides, and neither does the
    file extension. *)
Theorem csv_ingestion_succeeds_iff (W : file_handlers.World) (k : nat)
    (source_identifier : string) (df : pd.Frame) :
  file_handlers.is_url W source_identifier = false →
  file_handlers.read_csv W k source_identifier = Return df →
  frame_well_formed df →
  (flow.ingest_and_validate W source_identifier k
     = Return (file_handlers.CSVFileHandler_parse W k source_identifier) ∧
   (0 < pd.nrows df)%nat ∧ "raw_text" ∈ dom (pd.columns df)) ∨
  (flow.ingest_and_validate W source_identifier k = Raise ingestion_error ∧
   ¬ ((0 < pd.nrows df)%nat ∧ "raw_text" ∈ dom (pd.columns df))).
Proof.
  intros Hurl Hread Hwf. unfold flow.ingest_and_validate.
  rewrite (get_handler_not_url _ _ Hurl). simpl.
  unfold file_handlers.CSVFileHandler_parse. rewrite Hread.
  set (df' := if bool_decide ("id" ∉ dom (pd.columns df))
              then pd.setitem df "id" ((λ i, VInt (Z.of_nat i)) <$> seq 1 (pd.nrows df))
              else df).
  assert (frame_well_formed df' ∧ pd.nrows df' = pd.nrows df ∧
          "id" ∈ dom (pd.columns df') ∧
          ("raw_text" ∈ dom (pd.columns df') ↔ "raw_text" ∈ dom (pd.columns df)))
    as (Hwf' & Hn & Hid & Htext).
  { subst df'. case_bool_decide as Hc.
    - split; [apply setitem_well_formed; [done | by rewrite length_fmap, length_seq] |].
      split; [done |]. simpl. rewrite dom_insert_L, !elem_of_union, elem_of_singleton.
      split; [by left |]. split; [intros [? | ?]; done | by right].
    - split; [done |]. split; [done |]. split; [| done].
      by destruct (decide ("id" ∈ dom (pd.columns df))). }
  pose proof (validate_to_dict_records df' Hwf') as Hval.
  rewrite Hn, Htext in Hval.
  destruct (file_handlers.validate (pd.to_dict_records df')) eqn:Hv.
  - destruct (proj1 Hval eq_refl) as (Hpos & _ & Ht). left.
    rewrite bool_decide_true; [done |].
    intros Hnil. pose proof (length_to_dict_records df') as Hlen.
    rewrite Hnil in Hlen. simpl in Hlen. lia.
  - right. rewrite orb_true_r. split; [done |].
    intros [Hpos Ht]. assert (false = true); [| done]. apply Hval. by rewrite <- Hn in *.
Qed.

Lemma csv_ingestion_succeeds_iff_witness :
  file_handlers.is_url sample.test_world "/tmp/mock_data.csv" = false ∧
  file_handlers.read_csv sample.test_world 0 "/tmp/mock_data.csv" = Return sample.mock_csv ∧
  frame_well_formed sample.mock_csv ∧
  ((flow.ingest_and_validate sample.test_world "/tmp/mock_data.csv" 0
      = Return (file_handlers.CSVFileHandler_parse sample.test_world 0 "/tmp/mock_data.csv") ∧
    (0 < pd.nrows sample.mock_csv)%nat ∧ "raw_text" ∈ dom (pd.columns sample.mock_csv)) ∨
   (flow.ingest_and_validate sample.test_world "/tmp/mock_data.csv" 0 = Raise ingestion_error ∧
    ¬ ((0 < pd.nrows sample.mock_csv)%nat ∧ "raw_text" ∈ dom (pd.columns sample.mock_csv)))).
Proof.
  assert (frame_well_formed sample.mock_csv) as Hwf.
  { intros key col Hcol. unfold sample.mock_csv in Hcol. simpl in Hcol.
    repeat (apply lookup_insert_Some in Hcol as [[_ <-] | [_ Hcol]]; [reflexivity |]).
    by apply lookup_singleton_Some in Hcol as [_ <-]. }
  split; [reflexivity |]. split; [reflexivity |]. split; [exact Hwf |].
  exact (csv_ingestion_succeeds_iff sample.test_world 0 "/tmp/mock_data.csv" sample.mock_csv
           eq_refl eq_refl Hwf).
Defined.

(** X12.  For a URL every call of [ingest_and_validate] gives the same
    outcome, so a retry cannot help: the two mock records when the URL contains
    [ecommerce-report], the ingestion error otherwise. *)
Theorem url_ingestion_ignores_attempt (W : file_handlers.World) (source_identifier : string)
    (k : nat) :
  file_handlers.is_url W source_identifier = true →
  flow.ingest_and_validate W source_identifier k
  = if file_handlers.is_substring "ecommerce-report" source_identifier
    then Return (file_handlers.mock_trustfall_execute source_identifier)
    else Raise ingestion_error.
Proof.
  intros Hurl. unfold flow.ingest_and_validate, file_handlers.get_handler.
  rewrite Hurl. simpl. unfold file_handlers.TrustfallWebHandler_parse,
    file_handlers.mock_trustfall_execute.
  by destruct (file_handlers.is_substring "ecommerce-report" source_identifier).
Qed.

Lemma url_ingestion_ignores_attempt_witness :
  file_handlers.is_url sample.test_world "https://www.example.com/ecommerce-report-2025" = true ∧
  flow.ingest_and_validate sample.test_world "https://www.example.com/ecommerce-report-2025" 2
  = if file_handlers.is_substring "ecommerce-report"
         "https://www.example.com/ecommerce-report-2025"
    then Return (file_handlers.mock_trustfall_execute
                   "https://www.example.com/ecommerce-report-2025")
    else Raise ingestion_error.
Proof.
  split; [reflexivity |].
  apply (url_ingestion_ignores_attempt sample.test_world
           "https://www.example.com/ecommerce-report-2025" 2).
  reflexivity.
Defined.

(** ** The ingestion task *)

Lemma run_from_shape {A} (fn : nat → result A) (delays : list Z) (retries k : nat) :
  let run := prefect.run_from retries delays fn k in
  (1 ≤ prefect.run_count run ≤ S retries)%nat ∧
  prefect.slept run
    = (λ j, prefect.retry_delay delays j) <$> seq k (prefect.run_count run - 1) ∧
  (∀ e, prefect.state run = Raise e →
        prefect.run_count run = S retries ∧ fn (k + retries)%nat = Raise e) ∧
  (∀ a, prefect.state run = Return a →
        fn (k + (prefect.run_count run - 1))%nat = Return a).
Proof.
  revert k. induction retries as [| retries IH]; intros k; simpl.
  - destruct (fn k) as [a | e] eqn:Hk; simpl; rewrite Nat.add_0_r;
      (split; [lia |]); (split; [done |]); split; intros ? [= <-]; done.
  - destruct (fn k) as [a | e] eqn:Hk; simpl.
    + rewrite Nat.add_0_r. split; [lia |]. split; [done |]. split; intros ? [= <-]; done.
    + specialize (IH (S k)). simpl in IH.
      destruct IH as (Hc & Hs & Hraise & Hret).
      set (later := prefect.run_from retries delays fn (S k)) in *.
      split; [lia |]. split; [| split].
      * rewrite Nat.sub_0_r, Hs.
        destruct (prefect.run_count later) as [| c]; [lia |].
        simpl. by rewrite Nat.sub_0_r.
      * intros e' He'. destruct (Hraise e' He') as [Hc' Hf]. split; [lia |].
        by replace (k + S retries)%nat with (S k + retries)%nat by lia.
      * intros a Ha. specialize (Hret a Ha).
        by replace (k + (prefect.run_count later - 0))%nat
          with (S k + (prefect.run_count later - 1))%nat by lia.
Qed.

(** X13.  Whatever the source does, the ingestion function is called between
    one and four times, the delays slept are the first ones of 5, 10 and 30
    seconds, one per repeated call, and a failed ingestion has made all four
    calls. *)
Theorem ingest_task_bounds (W : file_handlers.World) (source_identifier : string) :
  (1 ≤ prefect.run_count (flow.ingest_task W source_identifier) ≤ 4)%nat ∧
  prefect.slept (flow.ingest_task W source_identifier)
    = take (prefect.run_count (flow.ingest_task W source_identifier) - 1)
           ([5; 10; 30] : list Z) ∧
  (∀ e, prefect.state (flow.ingest_task W source_identifier) = Raise e →
        prefect.run_count (flow.ingest_task W source_identifier) = 4%nat).
Proof.
  unfold flow.ingest_task, prefect.task.
  destruct (run_from_shape (flow.ingest_and_validate W source_identifier) [5; 10; 30] 3 0)
    as (Hc & Hs & Hraise & _).
  split; [done |]. split.
  - rewrite Hs.
    destruct (prefect.run_count _) as [| [| [| [| [| c]]]]]; simpl; (done || lia).
  - intros e He. by destruct (Hraise e He).
Qed.

Lemma ingest_task_Return_inv (W : file_handlers.World) (source_identifier : string)
    (data : ProcessedData) :
  prefect.state (flow.ingest_task W source_identifier) = Return data →
  data ≠ [] ∧ file_handlers.validate data = true ∧
  ∀ record, record ∈ data → is_Some (record !! "id") ∧ is_Some (record !! "raw_text").
Proof.
  intros Hstate. unfold flow.ingest_task, prefect.task in Hstate.
  destruct (run_from_shape (flow.ingest_and_validate W source_identifier) [5; 10; 30] 3 0)
    as (_ & _ & _ & Hret).
  specialize (Hret data Hstate). clear Hstate.
  revert Hret. generalize (0 + (prefect.run_count
    (prefect.run_from 3 [5; 10; 30]%Z (flow.ingest_and_validate W source_identifier) 0) - 1))%nat.
  intros j Hret. unfold flow.ingest_and_validate in Hret.
  destruct (negb _ || negb _) eqn:Hbad; [done |]. injection Hret as <-.
  apply orb_false_elim in Hbad as [Hne Hval].
  apply negb_false_iff in Hne, Hval.
  apply bool_decide_eq_true in Hne. split; [done |]. split; [done |].
  apply validate_true_iff in Hval as [_ Hall]. by apply Forall_forall.
Qed.

(** X14.  A batch that ingestion returns is not empty and passes [validate]:
    every record has [id] and [raw_text]. *)
Theorem ingested_batch_is_valid (W : file_handlers.World) (source_identifier : string)
    (data : ProcessedData) :
  prefect.state (flow.ingest_task W source_identifier) = Return data →
  data ≠ [] ∧ file_handlers.validate data = true ∧
  ∀ record, record ∈ data → is_Some (record !! "id") ∧ is_Some (record !! "raw_text").
Proof.
  intros Hstate. unfold flow.ingest_task, prefect.task in Hstate.
  destruct (run_from_shape (flow.ingest_and_validate W source_identifier) [5; 10; 30] 3 0)
    as (_ & _ & _ & Hret).
  specialize (Hret data Hstate). clear Hstate.
  revert Hret. generalize (0 + (prefect.run_count
    (prefect.run_from 3 [5; 10; 30]%Z (flow.ingest_and_validate W source_identifier) 0) - 1))%nat.
  intros j Hret. unfold flow.ingest_and_validate in Hret.
  destruct (negb _ || negb _) eqn:Hbad; [done |]. injection Hret as <-.
  apply orb_false_elim in Hbad as [Hne Hval].
  apply negb_false_iff in Hne, Hval.
  apply bool_decide_eq_true in Hne. split; [done |]. split; [done |].
  apply validate_true_iff in Hval as [_ Hall]. by apply Forall_forall.
Qed.

Lemma ingested_batch_is_valid_witness :
  prefect.state (flow.ingest_task sample.test_world "/tmp/mock_data.csv")
    = Return (file_handlers.CSVFileHandler_parse sample.test_world 0 "/tmp/mock_data.csv") ∧
  file_handlers.CSVFileHandler_parse sample.test_world 0 "/tmp/mock_data.csv" ≠ [] ∧
  file_handlers.validate
    (file_handlers.CSVFileHandler_parse sample.test_world 0 "/tmp/mock_data.csv") = true ∧
  ∀ record,
    record ∈ file_handlers.CSVFileHandler_parse sample.test_world 0 "/tmp/mock_data.csv" →
    is_Some (record !! "id") ∧ is_Some (record !! "raw_text").
Proof.
  split; [reflexivity |].
  apply (ingested_batch_is_valid sample.test_world "/tmp/mock_data.csv").
  reflexivity.
Defined.

(** X21.  The ingestion task ends at the first call that returns: after [j]
    failed calls ([j] at most 3) it has been run [j + 1] times, has slept the
    first [j] of the delays 5, 10 and 30 seconds, and returns that batch. *)
Theorem ingest_task_first_success (W : file_handlers.World) (source_identifier : string)
    (j : nat) (data : ProcessedData) :
  (j ≤ 3)%nat →
  (∀ k, (k < j)%nat → ingestion_failure W source_identifier k) →
  flow.ingest_and_validate W source_identifier j = Return data →
  prefect.state (flow.ingest_task W source_identifier) = Return data ∧
  prefect.run_count (flow.ingest_task W source_identifier) = S j ∧
  prefect.slept (flow.ingest_task W source_identifier) = take j [5; 10; 30].
Proof.
  intros Hj Hfail Hok. unfold flow.ingest_task, prefect.task.
  destruct (run_from_first_success (flow.ingest_and_validate W source_identifier)
              data [5; 10; 30] 3 0 j) as (Hs & Hc & Hd); [done | | done |].
  - intros i Hi. exists ingestion_error.
    apply ingest_and_validate_raises, Hfail. lia.
  - rewrite Hs, Hc, Hd. split; [done |]. split; [done |].
    destruct j as [| [| [| [| j]]]]; [done .. | lia].
Qed.

Lemma ingest_task_first_success_witness :
  (1 ≤ 3)%nat ∧
  (∀ k, (k < 1)%nat → ingestion_failure sample.late_csv "/tmp/mock_data.csv" k) ∧
  prefect.state (flow.ingest_task sample.late_csv "/tmp/mock_data.csv")
    = Return (file_handlers.CSVFileHandler_parse sample.late_csv 1 "/tmp/mock_data.csv") ∧
  prefect.run_count (flow.ingest_task sample.late_csv "/tmp/mock_data.csv") = 2%nat ∧
  prefect.slept (flow.ingest_task sample.late_csv "/tmp/mock_data.csv") = take 1 [5; 10; 30].
Proof.
  assert (∀ k, (k < 1)%nat → ingestion_failure sample.late_csv "/tmp/mock_data.csv" k) as H.
  { intros k Hk. apply (SourceUnreachable _ _ _ (ValueError "No columns to parse from file"));
      destruct k; (exact eq_refl || lia). }
  split; [lia |]. split; [exact H |].
  apply (ingest_task_first_success sample.late_csv "/tmp/mock_data.csv" 1
           (file_handlers.CSVFileHandler_parse sample.late_csv 1 "/tmp/mock_data.csv"));
    [lia | exact H | exact eq_refl].
Defined.

(** ** Scores *)

Lemma clamp_exact (p : Z) :
  p ∈ [0; 2; 3; 4; 5] →
  Py.min (flow.rescaled p) flow.f5_0 = float_of_int p ∧
  fle flow.f0_0 (float_of_int p) = true ∧ fle (float_of_int p) flow.f5_0 = true.
Proof.
  intros Hp. repeat (apply elem_of_cons in Hp as [-> | Hp]);
    [| | | | | by apply elem_of_nil in Hp]; vm_compute; auto.
Qed.

Lemma calculate_priority_of_label (row : gmap string value) (label : string) :
  row !! "llm_classification" = Some (VStr label) →
  flow.calculate_priority row =
    float_of_int
      (if String.eqb label "DetailedSpec"
       then (if truthy (get row "in_stock" (VBool false)) then 4 else 5)
       else if String.eqb label "ProductReview"
       then (if truthy (get row "in_stock" (VBool false)) then 3 else 2)
       else 0).
Proof.
  intros Hlabel. unfold flow.calculate_priority.
  destruct (clamp_exact _ (priority_points_cases row)) as [-> _]. f_equal.
  assert (get row "llm_classification" (VStr "") = VStr label) as Hg
    by (unfold get; by rewrite Hlabel).
  unfold flow.priority_points. cbv zeta. rewrite !Hg. cbn [eq_str].
  destruct (String.eqb_spec label "DetailedSpec") as [-> | _].
  - destruct (truthy _); reflexivity.
  - destruct (String.eqb label "ProductReview"); destruct (truthy _); reflexivity.
Qed.

Lemma DataFrame_row_text (I : pd.dtype_inference) (data : ProcessedData) (i : nat)
    (r : gmap string value) (k s : string) :
  keeps_text I → data !! i = Some r → r !! k = Some (VStr s) →
  pd.row (pd.DataFrame I data) i !! k = Some (VStr s).
Proof.
  intros Hkeep Hi Hk. rewrite DataFrame_row_lookup.
  rewrite decide_True.
  - apply Hkeep. by rewrite list_lookup_fmap, Hi; simpl; rewrite Hk.
  - apply elem_of_field_names. exists r. split; [by eapply list_elem_of_lookup_2 | by eexists].
Qed.

Lemma run_dask_analysis_lookup (I : pd.dtype_inference) (data out : ProcessedData)
    (g : np.RandomState) (i : nat) (o : gmap string value) :
  (flow.run_dask_analysis I data g).1 = Return out → out !! i = Some o →
  (i < length data)%nat ∧ ∃ v, o = scored (pd.row (pd.DataFrame I data) i) v.
Proof.
  intros Hrun Ho.
  destruct (run_dask_analysis_rows I data g) as (velocity & Hlen & Hrows).
  rewrite Hrun in Hrows. destruct data as [| r0 data']; [done |].
  assert (out = zip_with scored (pd.to_dict_records (pd.DataFrame I (r0 :: data'))) velocity)
    as -> by congruence.
  apply lookup_zip_with_Some in Ho as (r & v & -> & Hr & Hv).
  assert (i < length (r0 :: data'))%nat as Hi
    by (rewrite <- Hlen; by eapply lookup_lt_Some).
  split; [done |]. exists v.
  rewrite to_dict_records_lookup in Hr by done. by injection Hr as <-.
Qed.

Lemma object_dtype_keeps_text : keeps_text object_dtype.
Proof. intros cells i s H. simpl. by rewrite list_lookup_fmap, H. Qed.

(** X15.  Every record the scoring stage returns holds a float between 0 and
    5 under [priority_score] and a float under [inventory_velocity]. *)
Theorem scoring_output_in_range (I : pd.dtype_inference) (data out : ProcessedData)
    (g : np.RandomState) (o : gmap string value) :
  (flow.run_dask_analysis I data g).1 = Return out → o ∈ out →
  ∃ p v, o !! "priority_score" = Some (VFloat p) ∧
         fle flow.f0_0 p = true ∧ fle p flow.f5_0 = true ∧
         o !! "inventory_velocity" = Some (VFloat v).
Proof.
  intros Hrun Ho. apply list_elem_of_lookup in Ho as [i Hi].
  destruct (run_dask_analysis_lookup _ _ _ _ _ _ Hrun Hi) as (_ & v & ->).
  set (row := pd.row (pd.DataFrame I data) i).
  exists (flow.calculate_priority row), v.
  split; [apply priority_of_scored |].
  unfold flow.calculate_priority.
  destruct (clamp_exact _ (priority_points_cases row)) as (-> & H0 & H5).
  split; [done |]. split; [done |].
  unfold scored. rewrite lookup_insert_ne by done. by rewrite lookup_insert_eq.
Qed.

Lemma scoring_output_in_range_witness :
  (flow.run_dask_analysis object_dtype sample.classified_pair sample.zero_then_half).1
    = Return sample.scored_pair ∧
  ∃ p v, sample.scored_review !! "priority_score" = Some (VFloat p) ∧
         fle flow.f0_0 p = true ∧ fle p flow.f5_0 = true ∧
         sample.scored_review !! "inventory_velocity" = Some (VFloat v).
Proof.
  split; [exact eq_refl |].
  apply (scoring_output_in_range object_dtype sample.classified_pair sample.scored_pair
           sample.zero_then_half sample.scored_review).
  - exact eq_refl.
  - by left.
Defined.

(** X16.  Through classification and scoring the priority follows the length
    of the text: texts of more than 100 characters score 0, texts of 41 to 100
    characters 4 or 5, shorter texts 2 or 3. *)
Theorem priority_by_text_length (I : pd.dtype_inference)
    (raw_data classified_data out : ProcessedData) (g : np.RandomState)
    (i : nat) (r o : gmap string value) (s : string) :
  keeps_text I →
  flow.run_llm_classification raw_data = Return classified_data →
  (flow.run_dask_analysis I classified_data g).1 = Return out →
  raw_data !! i = Some r → out !! i = Some o →
  r !! "raw_text" = Some (VStr s) →
  ((String.length s ≤ 40)%nat →
   o !! "priority_score" = Some (VFloat (float_of_int 2)) ∨
   o !! "priority_score" = Some (VFloat (float_of_int 3))) ∧
  ((40 < String.length s ≤ 100)%nat →
   o !! "priority_score" = Some (VFloat (float_of_int 4)) ∨
   o !! "priority_score" = Some (VFloat (float_of_int 5))) ∧
  ((100 < String.length s)%nat →
   o !! "priority_score" = Some (VFloat (float_of_int 0))).
Proof.
  intros Hkeep Hclass Hrun Hr Ho Htext.
  pose proof (run_llm_classification_rows raw_data) as Hrows. rewrite Hclass in Hrows.
  destruct (Forall2_lookup_l _ _ _ _ _ Hrows Hr) as (c & Hc & s' & Hs & ->).
  unfold get in Hs. rewrite Htext in Hs. injection Hs as <-.
  destruct (run_dask_analysis_lookup _ _ _ _ _ _ Hrun Ho) as (_ & v & ->).
  rewrite priority_of_scored.
  rewrite (calculate_priority_of_label _ (label_of_length (String.length s)))
    by (apply (DataFrame_row_text I classified_data i (classified r s)); [done | done |];
        by rewrite classified_lookup).
  unfold label_of_length.
  destruct (Nat.ltb_spec 100 (String.length s)); [| destruct (Nat.ltb_spec 40 (String.length s))];
    simpl; (split; [| split]); intros; try lia; try done;
    destruct (truthy _); auto.
Qed.

Lemma priority_by_text_length_witness :
  keeps_text object_dtype ∧
  flow.run_llm_classification [sample.review; sample.untexted] = Return sample.classified_pair ∧
  (flow.run_dask_analysis object_dtype sample.classified_pair sample.zero_then_half).1
    = Return sample.scored_pair ∧
  ((String.length "Great camera." ≤ 40)%nat →
   sample.scored_review !! "priority_score" = Some (VFloat (float_of_int 2)) ∨
   sample.scored_review !! "priority_score" = Some (VFloat (float_of_int 3))) ∧
  ((40 < String.length "Great camera." ≤ 100)%nat →
   sample.scored_review !! "priority_score" = Some (VFloat (float_of_int 4)) ∨
   sample.scored_review !! "priority_score" = Some (VFloat (float_of_int 5))) ∧
  ((100 < String.length "Great camera.")%nat →
   sample.scored_review !! "priority_score" = Some (VFloat (float_of_int 0))).
Proof.
  split; [exact object_dtype_keeps_text |]. split; [exact eq_refl |].
  split; [exact eq_refl |].
  apply (priority_by_text_length object_dtype [sample.review; sample.untexted]
           sample.classified_pair sample.scored_pair sample.zero_then_half
           0 sample.review sample.scored_review "Great camera.").
  - exact object_dtype_keeps_text.
  - exact eq_refl.
  - exact eq_refl.
  - exact eq_refl.
  - exact eq_refl.
  - exact eq_refl.
Defined.

(** X17.  The score of a record depends on the other records of its batch: a
    [ProductReview] record without [in_stock] scores 3, as if in stock, when
    some record of the batch has the field (its own cell is then NaN, which is
    true in Python), and 2 when none has. *)
Theorem missing_stock_counts_as_in_stock (I : pd.dtype_inference)
    (data out : ProcessedData) (g : np.RandomState)
    (i : nat) (r o : gmap string value) :
  keeps_text I →
  (flow.run_dask_analysis I data g).1 = Return out →
  data !! i = Some r → out !! i = Some o →
  r !! "in_stock" = None →
  r !! "llm_classification" = Some (VStr "ProductReview") →
  ("in_stock" ∈ pd.field_names data →
   o !! "priority_score" = Some (VFloat (float_of_int 3))) ∧
  ("in_stock" ∉ pd.field_names data →
   o !! "priority_score" = Some (VFloat (float_of_int 2))).
Proof.
  intros Hkeep Hrun Hr Ho Hstock Hlabel.
  destruct (run_dask_analysis_lookup _ _ _ _ _ _ Hrun Ho) as (_ & v & ->).
  rewrite priority_of_scored.
  rewrite (calculate_priority_of_label _ "ProductReview")
    by (by apply (DataFrame_row_text I data i r)).
  simpl. unfold get. split; intros Hin.
  - by rewrite (DataFrame_row_gap I data i r "in_stock").
  - by rewrite DataFrame_row_lookup, decide_False.
Qed.

Lemma missing_stock_counts_as_in_stock_witness :
  keeps_text object_dtype ∧
  (flow.run_dask_analysis object_dtype sample.mixed_stock sample.zero_then_half).1
    = Return sample.scored_mixed_stock ∧
  ("in_stock" ∈ pd.field_names sample.mixed_stock →
   sample.scored_unstocked !! "priority_score" = Some (VFloat (float_of_int 3))) ∧
  ("in_stock" ∉ pd.field_names sample.mixed_stock →
   sample.scored_unstocked !! "priority_score" = Some (VFloat (float_of_int 2))).
Proof.
  split; [exact object_dtype_keeps_text |]. split; [exact eq_refl |].
  apply (missing_stock_counts_as_in_stock object_dtype sample.mixed_stock
           sample.scored_mixed_stock sample.zero_then_half
           1 sample.classified_review0 sample.scored_unstocked).
  - exact object_dtype_keeps_text.
  - exact eq_refl.
  - exact eq_refl.
  - exact eq_refl.
  - exact eq_refl.
  - exact eq_refl.
Defined.

(** ** The stages in sequence *)

Lemma task_without_retries_state {A} (fn : nat → result A) :
  prefect.state (prefect.task 0 [] fn) = fn 0%nat.
Proof. unfold prefect.task. simpl. by destruct (fn 0%nat). Qed.

Lemma ingest_task_first_call (W : file_handlers.World) (source_identifier : string)
    (data : ProcessedData) :
  flow.ingest_and_validate W source_identifier 0 = Return data →
  prefect.state (flow.ingest_task W source_identifier) = Return data.
Proof. intros H. unfold flow.ingest_task, prefect.task. simpl. by rewrite H. Qed.

Lemma ingest_task_Raise_inv (W : file_handlers.World) (source_identifier : string) (e : exn) :
  prefect.state (flow.ingest_task W source_identifier) = Raise e → e = ingestion_error.
Proof.
  intros Hstate. unfold flow.ingest_task, prefect.task in Hstate.
  destruct (run_from_shape (flow.ingest_and_validate W source_identifier) [5; 10; 30] 3 0)
    as (_ & _ & Hraise & _).
  destruct (Hraise e Hstate) as [_ Hlast]. unfold flow.ingest_and_validate in Hlast.
  destruct (negb _ || negb _); [| done]. by injection Hlast as <-.
Qed.

Lemma run_dask_analysis_nonempty (I : pd.dtype_inference) (data : ProcessedData)
    (g : np.RandomState) :
  data ≠ [] →
  ∃ out, (flow.run_dask_analysis I data g).1 = Return out ∧ length out = length data.
Proof.
  intros Hne. destruct (run_dask_analysis_rows I data g) as (velocity & Hlen & Hrows).
  assert (pd.nrows (pd.DataFrame I data) = length data) as Hn by done.
  destruct data as [| r0 data']; [done |].
  eexists. split; [exact Hrows |].
  rewrite length_zip_with_l_eq; rewrite length_to_dict_records; congruence.
Qed.

Lemma convert_to_rdf_after_scoring (I : pd.dtype_inference) (B : rdf_storage.Builtins)
    (S : rdf_storage.Store) (data out : ProcessedData) (g : np.RandomState) :
  (flow.run_dask_analysis I data g).1 = Return out →
  ∃ ts, rdf_storage.convert_to_rdf B S out = Return ts.
Proof.
  intros Hrun.
  destruct (rdf_storage.convert_to_rdf B S out) as [ts | e] eqn:Hc; [by exists ts |].
  apply convert_to_rdf_Raise in Hc as (_ & o & s & Hin & _ & Hs).
  apply list_elem_of_lookup in Hin as [i Hi].
  destruct (run_dask_analysis_lookup _ _ _ _ _ _ Hrun Hi) as (_ & v & ->).
  by rewrite priority_of_scored in Hs.
Qed.

Lemma run_llm_classification_length (raw_data out : ProcessedData) :
  flow.run_llm_classification raw_data = Return out → length out = length raw_data.
Proof.
  intros Hrun. pose proof (run_llm_classification_rows raw_data) as Hrows.
  rewrite Hrun in Hrows. symmetry. by eapply Forall2_length.
Qed.

Lemma stages_after_classification (I : pd.dtype_inference) (B : rdf_storage.Builtins)
    (S : rdf_storage.Store) (g : np.RandomState) (raw_data classified_data : ProcessedData) :
  raw_data ≠ [] →
  flow.run_llm_classification raw_data = Return classified_data →
  ∃ analyzed_data ts,
    (flow.run_dask_analysis I classified_data g).1 = Return analyzed_data ∧
    length analyzed_data = length raw_data ∧
    rdf_storage.convert_to_rdf B S analyzed_data = Return ts.
Proof.
  intros Hne Hclass. pose proof (run_llm_classification_length _ _ Hclass) as Hlen.
  destruct (run_dask_analysis_nonempty I classified_data g) as (analyzed & Hrun & Hlen2).
  { intros ->. destruct raw_data; [done | simpl in Hlen; lia]. }
  destruct (convert_to_rdf_after_scoring I B S _ _ _ Hrun) as [ts Hts].
  exists analyzed, ts. split; [done |]. split; [congruence | done].
Qed.

(** X18.  Inside the flow the scoring stage and the graph mapping cannot
    fail: once ingestion has returned a batch and classification has returned,
    scoring returns one record per ingested record (it never meets the empty
    batch) and [convert_to_rdf] returns a graph. *)
Theorem flow_cannot_fail_after_classification (W : file_handlers.World)
    (I : pd.dtype_inference) (B : rdf_storage.Builtins) (S : rdf_storage.Store)
    (g : np.RandomState) (source_identifier : string)
    (raw_data classified_data : ProcessedData) :
  prefect.state (flow.ingest_task W source_identifier) = Return raw_data →
  flow.run_llm_classification raw_data = Return classified_data →
  ∃ analyzed_data ts,
    (flow.run_dask_analysis I classified_data g).1 = Return analyzed_data ∧
    length analyzed_data = length raw_data ∧
    rdf_storage.convert_to_rdf B S analyzed_data = Return ts.
Proof.
  intros Hingest Hclass.
  destruct (ingest_task_Return_inv _ _ _ Hingest) as (Hne & _).
  by apply stages_after_classification.
Qed.

Lemma flow_cannot_fail_after_classification_witness :
  prefect.state (flow.ingest_task sample.test_world "/tmp/mock_data.csv")
    = Return (file_handlers.CSVFileHandler_parse sample.test_world 0 "/tmp/mock_data.csv") ∧
  flow.run_llm_classification
    (file_handlers.CSVFileHandler_parse sample.test_world 0 "/tmp/mock_data.csv")
    = Return sample.classified_mock_csv ∧
  ∃ analyzed_data ts,
    (flow.run_dask_analysis object_dtype sample.classified_mock_csv sample.zero_then_half).1
      = Return analyzed_data ∧
    length analyzed_data
      = length (file_handlers.CSVFileHandler_parse sample.test_world 0 "/tmp/mock_data.csv") ∧
    rdf_storage.convert_to_rdf sample.builtins sample.insertion_order analyzed_data = Return ts.
Proof.
  split; [exact eq_refl |]. split; [exact eq_refl |].
  apply (flow_cannot_fail_after_classification sample.test_world object_dtype sample.builtins
           sample.insertion_order sample.zero_then_half "/tmp/mock_data.csv"
           (file_handlers.CSVFileHandler_parse sample.test_world 0 "/tmp/mock_data.csv")
           sample.classified_mock_csv);
    exact eq_refl.
Defined.

(** X19.  Up to and including scoring, the stages of the flow fail for two
    reasons only: ingestion failed on all four calls, with the ingestion error,
    or classification raised [TypeError] on the ingested batch.  The
    [IndexError] of scoring on the empty batch cannot occur there. *)
Theorem enrichment_failure_causes (W : file_handlers.World) (I : pd.dtype_inference)
    (g : np.RandomState) (source_identifier : string) (e : exn) :
  (do raw_data <- prefect.state (flow.ingest_task W source_identifier);
   do classified_data <- prefect.state (flow.classification_task raw_data);
   prefect.state (flow.analysis_task I classified_data g)) = Raise e →
  (e = ingestion_error ∧
   prefect.state (flow.ingest_task W source_identifier) = Raise e ∧
   prefect.run_count (flow.ingest_task W source_identifier) = 4%nat) ∨
  (e = TypeError ∧
   ∃ raw_data, prefect.state (flow.ingest_task W source_identifier) = Return raw_data ∧
               flow.run_llm_classification raw_data = Raise e).
Proof.
  unfold flow.classification_task, flow.analysis_task.
  destruct (prefect.state (flow.ingest_task W source_identifier)) as [raw | e0] eqn:Hingest;
    simpl.
  - rewrite task_without_retries_state.
    destruct (flow.run_llm_classification raw) as [classified | e1] eqn:Hclass; simpl.
    + rewrite task_without_retries_state.
      destruct (ingest_task_Return_inv _ _ _ Hingest) as (Hne & _).
      pose proof (run_llm_classification_length _ _ Hclass) as Hlen.
      destruct (run_dask_analysis_nonempty I classified g) as (analyzed & Hrun & _).
      { intros ->. destruct raw; [done | simpl in Hlen; lia]. }
      by rewrite Hrun.
    + intros [= <-]. right.
      pose proof (run_llm_classification_rows raw) as Hrows. rewrite Hclass in Hrows.
      destruct Hrows as [-> _]. split; [done |]. by exists raw.
  - intros [= <-]. left. pose proof (ingest_task_Raise_inv _ _ _ Hingest) as ->.
    split; [done |]. split; [done |].
    unfold flow.ingest_task, prefect.task in *.
    destruct (run_from_shape (flow.ingest_and_validate W source_identifier) [5; 10; 30] 3 0)
      as (_ & _ & Hraise & _).
    by destruct (Hraise _ Hingest).
Qed.

Lemma enrichment_failure_causes_witness :
  (do raw_data <- prefect.state (flow.ingest_task sample.header_only_csv "data.csv");
   do classified_data <- prefect.state (flow.classification_task raw_data);
   prefect.state (flow.analysis_task object_dtype classified_data sample.zero_then_half))
    = Raise ingestion_error ∧
  ((ingestion_error = ingestion_error ∧
    prefect.state (flow.ingest_task sample.header_only_csv "data.csv") = Raise ingestion_error ∧
    prefect.run_count (flow.ingest_task sample.header_only_csv "data.csv") = 4%nat) ∨
   (ingestion_error = TypeError ∧
    ∃ raw_data,
      prefect.state (flow.ingest_task sample.header_only_csv "data.csv") = Return raw_data ∧
      flow.run_llm_classification raw_data = Raise ingestion_error)).
Proof.
  split; [exact eq_refl |].
  apply (enrichment_failure_causes sample.header_only_csv object_dtype
           sample.zero_then_half "data.csv" ingestion_error).
  exact eq_refl.
Defined.

(** X20.  A readable CSV file with at least one row and a [raw_text] column
    holding only strings, with or without an [id] column, passes every stage:
    ingestion returns one record per row at the first call, classification and
    scoring return as many, and [convert_to_rdf] returns a graph of at most
    twelve triples per row. *)
Theorem textual_csv_passes_every_stage (W : file_handlers.World) (I : pd.dtype_inference)
    (B : rdf_storage.Builtins) (S : rdf_storage.Store) (g : np.RandomState)
    (source_identifier : string) (df : pd.Frame) (texts : list value) :
  file_handlers.is_url W source_identifier = false →
  file_handlers.read_csv W 0 source_identifier = Return df →
  frame_well_formed df →
  (0 < pd.nrows df)%nat →
  pd.columns df !! "raw_text" = Some texts →
  (∀ v, v ∈ texts → ∃ s, v = VStr s) →
  ∃ raw_data classified_data analyzed_data ts,
    flow.ingest_and_validate W source_identifier 0 = Return raw_data ∧
    flow.run_llm_classification raw_data = Return classified_data ∧
    (flow.run_dask_analysis I classified_data g).1 = Return analyzed_data ∧
    rdf_storage.convert_to_rdf B S analyzed_data = Return ts ∧
    length analyzed_data = pd.nrows df ∧
    (length ts ≤ 12 * pd.nrows df)%nat.
Proof.
  intros Hurl Hread Hwf Hpos Htexts Hstr.
  assert ("raw_text" ∈ dom (pd.columns df)) as Hdom by (apply elem_of_dom; by eexists).
  destruct (csv_ingestion_cases W 0 source_identifier df Hurl Hread Hwf)
    as [(Hingest & _) | (_ & Hno)]; [| by destruct Hno].
  set (raw := file_handlers.CSVFileHandler_parse W 0 source_identifier) in *.
  assert (length raw = pd.nrows df ∧
          ∀ r, r ∈ raw → ∃ s, r !! "raw_text" = Some (VStr s)) as [Hlen Htext].
  { subst raw. unfold file_handlers.CSVFileHandler_parse. rewrite Hread.
    assert (∀ i, (i < pd.nrows df)%nat → ∃ s, pd.row df i !! "raw_text" = Some (VStr s))
      as Hrow.
    { intros i Hi. unfold pd.row. rewrite lookup_omap, Htexts. simpl.
      destruct (lookup_lt_is_Some_2 texts i) as [v Hv]; [by rewrite (Hwf _ _ Htexts) |].
      destruct (Hstr v) as [s ->]; [by eapply list_elem_of_lookup_2 |]. by exists s. }
    case_bool_decide.
    - rewrite to_dict_records_setitem by (by rewrite length_fmap, length_seq). split.
      + rewrite length_zip_with_l_eq; rewrite length_to_dict_records; [done |].
        by rewrite length_fmap, length_seq.
      + intros r Hr. apply list_elem_of_lookup in Hr as [i Hi].
        apply lookup_zip_with_Some in Hi as (r0 & x & -> & Hr0 & _).
        assert (i < pd.nrows df)%nat as Hi
          by (rewrite <- length_to_dict_records; by eapply lookup_lt_Some).
        rewrite to_dict_records_lookup in Hr0 by done. injection Hr0 as <-.
        rewrite lookup_insert_ne by done. by apply Hrow.
    - split; [apply length_to_dict_records |].
      intros r Hr. apply list_elem_of_lookup in Hr as [i Hi].
      assert (i < pd.nrows df)%nat as Hlt
        by (rewrite <- length_to_dict_records; by eapply lookup_lt_Some).
      rewrite to_dict_records_lookup in Hi by done. injection Hi as <-. by apply Hrow. }
  assert (raw ≠ []) as Hne by (intros Hnil; rewrite Hnil in Hlen; simpl in Hlen; lia).
  destruct (flow.run_llm_classification raw) as [classified | e] eqn:Hclass.
  - destruct (stages_after_classification I B S g raw classified Hne Hclass)
      as (analyzed & ts & Hrun & Hlen2 & Hts).
    exists raw, classified, analyzed, ts.
    split; [done |]. split; [done |]. split; [done |]. split; [done |].
    split; [congruence |].
    apply convert_to_rdf_size_bound_aux in Hts. lia.
  - exfalso. pose proof (run_llm_classification_rows raw) as Hrows. rewrite Hclass in Hrows.
    destruct Hrows as (_ & r & Hin & Hbad).
    destruct (Htext r Hin) as [s Hs]. apply (Hbad s). unfold get. by rewrite Hs.
Qed.

Lemma textual_csv_passes_every_stage_witness :
  file_handlers.is_url sample.test_world "/tmp/mock_data.csv" = false ∧
  file_handlers.read_csv sample.test_world 0 "/tmp/mock_data.csv" = Return sample.mock_csv ∧
  (0 < pd.nrows sample.mock_csv)%nat ∧
  ∃ raw_data classified_data analyzed_data ts,
    flow.ingest_and_validate sample.test_world "/tmp/mock_data.csv" 0 = Return raw_data ∧
    flow.run_llm_classification raw_data = Return classified_data ∧
    (flow.run_dask_analysis object_dtype classified_data sample.zero_then_half).1
      = Return analyzed_data ∧
    rdf_storage.convert_to_rdf sample.builtins sample.insertion_order analyzed_data
      = Return ts ∧
    length analyzed_data = pd.nrows sample.mock_csv ∧
    (length ts ≤ 12 * pd.nrows sample.mock_csv)%nat.
Proof.
  split; [exact eq_refl |]. split; [exact eq_refl |]. split; [simpl; lia |].
  apply (textual_csv_passes_every_stage sample.test_world object_dtype sample.builtins
           sample.insertion_order sample.zero_then_half "/tmp/mock_data.csv" sample.mock_csv
           [VStr "The new smartphone has a great camera and long battery life.";
            VStr "A quick memo about Q3 inventory status.";
            VStr "Detailed specifications for the upcoming Q1 product launch.";
            VStr "Short note about supply chain delay."]).
  - exact eq_refl.
  - exact eq_refl.
  - intros key col Hcol. unfold sample.mock_csv in Hcol. simpl in Hcol.
    repeat (apply lookup_insert_Some in Hcol as [[_ <-] | [_ Hcol]]; [reflexivity |]).
    by apply lookup_singleton_Some in Hcol as [_ <-].
  - simpl. lia.
  - exact eq_refl.
  - intros v Hv. repeat (apply elem_of_cons in Hv as [-> | Hv]; [by eexists |]).
    by apply elem_of_nil in Hv.
Defined.
